(** * MNIST notebooks: the Sequential CNN and the Y-Network

    A shallow embedding of the two notebooks of the repository,
    [versions/2020/cnn/code/cnn-mnist.ipynb] (a Sequential stack) and the
    functional-API Y-Network notebook.  The notebooks are straight-line
    scripts of NumPy and Keras calls; they are embedded as programs of a
    small exception-and-trace monad over an abstract framework. *)

From Stdlib Require Import String ZArith NArith Bool Lia List Permutation Sorted FinFun.
From Stdlib Require Import Strings.Byte Floats.SpecFloat.
Import ListNotations.
Open Scope string_scope.
Open Scope list_scope.
Open Scope Z_scope.

(** ** Exceptions *)

Record exn := Exn { exn_class : string; exn_msg : string }.

Definition IndexError (m : string) : exn := Exn "IndexError" m.
Definition ValueError (m : string) : exn := Exn "ValueError" m.

Definition result (A : Type) : Type := (exn + A)%type.

(** ** IEEE binary32 and binary64, as the arrays and scores hold them *)

Module F32.
Definition prec : Z := 24.
Definition emax : Z := 128.
Definition t := spec_float.
Definition of_Z (n : Z) : t := binary_normalize prec emax n 0 false.
Definition zero : t := S754_zero false.
Definition one : t := of_Z 1.
Definition div : t -> t -> t := SFdiv prec emax.
Definition leb : t -> t -> bool := SFleb.
Definition eqb : t -> t -> bool := SFeqb.
End F32.

Module F64.
Definition prec : Z := 53.
Definition emax : Z := 1024.
Definition t := spec_float.
Definition of_Z (n : Z) : t := binary_normalize prec emax n 0 false.
Definition mul : t -> t -> t := SFmul prec emax.
End F64.

(** ** NumPy arrays: a shape and the elements in row-major order *)

Module np.

Record ndarray (A : Type) := mk_ndarray { shape : list nat; data : list A }.
Arguments mk_ndarray {A} shape data.
Arguments shape {A} _.
Arguments data {A} _.

Definition uint8 := byte.
Definition uint8_val (b : uint8) : Z := Z.of_N (Byte.to_N b).

Definition prod_shape (s : list nat) : nat := fold_right Nat.mul 1%nat s.
Definition size {A} (a : ndarray A) : nat := prod_shape (shape a).

(** [a.shape[i]] *)
Definition shape_at {A} (a : ndarray A) (i : nat) : result nat :=
  match nth_error (shape a) i with
  | Some d => inr d
  | None => inl (IndexError "tuple index out of range")
  end.

(** [np.reshape(a, [-1, s, s, 1])]: the free dimension is the size
    divided by the product of the others, and must divide it. *)
Definition reshape_images {A} (a : ndarray A) (s : nat) : result (ndarray A) :=
  let known := (s * s * 1)%nat in
  if (known =? 0)%nat then
    inl (ValueError "cannot reshape array into shape (-1, s, s, 1)")
  else if (size a mod known =? 0)%nat then
    inr (mk_ndarray [(size a / known)%nat; s; s; 1%nat] (data a))
  else inl (ValueError "cannot reshape array into shape (-1, s, s, 1)").

(** [a.astype('float32')] on a uint8 array: every value is exact. *)
Definition astype_float32 (a : ndarray uint8) : ndarray F32.t :=
  mk_ndarray (shape a) (map (fun b => F32.of_Z (uint8_val b)) (data a)).

(** [a / n] for a float32 array and a Python int: computed in float32. *)
Definition true_divide (a : ndarray F32.t) (n : Z) : ndarray F32.t :=
  mk_ndarray (shape a) (map (fun v => F32.div v (F32.of_Z n)) (data a)).

(** [np.unique(a)]: the sorted distinct elements of the flattened array. *)
Fixpoint insert_unique (v : Z) (l : list Z) : list Z :=
  match l with
  | [] => [v]
  | x :: r =>
      if v <? x then v :: l
      else if v =? x then l
      else x :: insert_unique v r
  end.

Definition unique_values (l : list Z) : list Z :=
  fold_right insert_unique [] l.

Definition unique (a : ndarray uint8) : ndarray Z :=
  let u := unique_values (map uint8_val (data a)) in
  mk_ndarray [length u] u.

(** [len(a)]: the first dimension (a 0-d array has no len). *)
Definition len {A} (a : ndarray A) : result nat :=
  match shape a with
  | d :: _ => inr d
  | [] => inl (Exn "TypeError" "len() of unsized object")
  end.

(** [np.max] of a list of ints; an empty array has no maximum. *)
Definition max (l : list Z) : result Z :=
  match l with
  | [] => inl (ValueError "zero-size array to reduction operation maximum which has no identity")
  | x :: r => inr (fold_left Z.max r x)
  end.

(** The rows of an array along its last axis. *)
Fixpoint chunks {A} (k n : nat) (l : list A) : list (list A) :=
  match n with
  | O => []
  | S n' => firstn k l :: chunks k n' (skipn k l)
  end.

Definition rows {A} (a : ndarray A) : list (list A) :=
  let k := last (shape a) 1%nat in
  chunks k (prod_shape (removelast (shape a))) (data a).

End np.

(** ** [tensorflow.keras.utils.to_categorical] *)

(** [row[j] = v] on a list; labels come from a uint8 array, so the index
    is never negative. *)
Fixpoint list_assign {A} (l : list A) (j : nat) (v : A) : list A :=
  match l, j with
  | [], _ => []
  | _ :: r, O => v :: r
  | x :: r, S j' => x :: list_assign r j' v
  end.

(** [categorical = np.zeros((n, num_classes)); categorical[np.arange(n), y] = 1]
    with [num_classes = np.max(y) + 1], the call giving no [num_classes]. *)
Definition to_categorical (y : np.ndarray np.uint8) : result (np.ndarray F32.t) :=
  let input_shape :=
    match rev (np.shape y) with
    | 1%nat :: _ :: _ => removelast (np.shape y)
    | _ => np.shape y
    end in
  let y' := map np.uint8_val (np.data y) in
  match np.max y' with
  | inl e => inl e
  | inr m =>
      let num_classes := Z.to_nat (m + 1) in
      let categorical :=
        map (fun yi => list_assign (repeat F32.zero num_classes) (Z.to_nat yi) F32.one) y' in
      inr (np.mk_ndarray (input_shape ++ [num_classes]) (concat categorical))
  end.

(** ** Keras layers, symbolic tensors and models *)

Module keras.

(** A layer with the keyword arguments the notebooks give it; [None] is an
    argument left to its default. *)
Inductive layer :=
| Conv2D (filters kernel_size : Z) (padding activation : option string)
         (dilation_rate : option Z) (input_shape : option (list nat))
| MaxPooling2D
| Flatten
| Dense (units : nat) (activation : option string)
| Activation (activation : string).

(** The tensors of the functional API: an [Input], a layer called on a
    tensor, or [concatenate] of a list of tensors. *)
#[warnings="-register-all"]
Inductive tensor :=
| Input (uid : nat) (shape : list nat)
| Apply (l : layer) (x : tensor)
| concatenate (xs : list tensor).

Inductive model :=
| Sequential (layers : list layer)
| Model (inputs : list tensor) (outputs : tensor) (name : string).

(** Keras' defaults for the arguments a call leaves out. *)
Definition padding_of (p : option string) : string :=
  match p with Some s => s | None => "valid"%string end.
Definition activation_of (a : option string) : string :=
  match a with Some s => s | None => "linear"%string end.
Definition dilation_of (d : option Z) : Z :=
  match d with Some k => k | None => 1 end.

(** The layers between an [Input] and a tensor, first applied first. *)
Fixpoint chain (t : tensor) : list layer :=
  match t with
  | Apply l x => chain x ++ [l]
  | _ => []
  end.

(** The tensor a chain of layers starts from. *)
Fixpoint source (t : tensor) : tensor :=
  match t with
  | Apply _ x => source x
  | _ => t
  end.

(** The tensors a merge joins, found below the layers applied after it. *)
Fixpoint merged (t : tensor) : list tensor :=
  match t with
  | Apply _ x => merged x
  | concatenate xs => xs
  | Input _ _ => []
  end.

Definition branches (m : model) : list tensor :=
  match m with
  | Model _ outputs _ => merged outputs
  | Sequential _ => []
  end.

Definition is_Conv2D (l : layer) : bool :=
  match l with Conv2D _ _ _ _ _ _ => true | _ => false end.
Definition is_MaxPooling2D (l : layer) : bool :=
  match l with MaxPooling2D => true | _ => false end.

End keras.

(** ** The framework calls a notebook makes *)

(** [((x_train, y_train), (x_test, y_test))] *)
Record dataset := mk_dataset {
  ds_x_train : np.ndarray np.uint8;
  ds_y_train : np.ndarray np.uint8;
  ds_x_test : np.ndarray np.uint8;
  ds_y_test : np.ndarray np.uint8
}.

(** The [x] argument of [fit] and [evaluate]: one array, or a list. *)
Inductive xdata :=
| one_array (a : np.ndarray F32.t)
| array_list (l : list (np.ndarray F32.t)).

Definition arrays_of (x : xdata) : list (np.ndarray F32.t) :=
  match x with
  | one_array a => [a]
  | array_list l => l
  end.

Inductive call :=
| mnist_load_data
| np_unique (a : np.ndarray np.uint8)
| len (a : np.ndarray Z)
| utils_to_categorical (y : np.ndarray np.uint8)
| shape_index (a : np.ndarray np.uint8) (i : nat)
| np_reshape (a : np.ndarray np.uint8) (s : nat)
| astype_float32 (a : np.ndarray np.uint8)
| true_divide (a : np.ndarray F32.t) (n : Z)
| new_Input (shape : list nat)
| new_layer (l : keras.layer)
| layer_call (l : keras.layer) (x : keras.tensor)
| layers_concatenate (xs : list keras.tensor)
| new_Sequential
| model_add (m : keras.model) (l : keras.layer)
| new_Model (inputs : list keras.tensor) (outputs : keras.tensor) (name : string)
| model_summary (m : keras.model)
| plot_model (m : keras.model) (to_file : string) (show_shapes : bool)
| model_compile (m : keras.model) (loss optimizer : string) (metrics : list string)
| model_fit (m : keras.model) (x : xdata) (y : np.ndarray F32.t)
            (validation_data : option (xdata * np.ndarray F32.t))
            (epochs batch_size : Z)
| model_evaluate (m : keras.model) (x : xdata) (y : np.ndarray F32.t) (batch_size : Z)
| print (format : string) (arg : F64.t).

(** A call that was made, and the exception it raised, if any. *)
Record event := mk_event { ev_call : call; ev_raised : option exn }.

(** What the framework decides: whether a call raises (out of memory, a
    missing download, an interrupt, ...), the dataset the loader returns and
    the [[loss, accuracy]] that [evaluate] returns under [metrics=['accuracy']]. *)
Record framework := mk_framework {
  fw_raises : list event -> call -> option exn;
  fw_dataset : dataset;
  fw_score : list event -> F64.t * F64.t
}.

(** Where a call sends output.  Progress bars, summaries and [print] go to
    the standard output; [plot_model] writes the file it is given; and the
    loader keeps the dataset it downloads in a cache file of the
    framework's own, which it writes when the file is not there yet. *)
Inductive output :=
| no_output
| to_stdout
| to_file (path : string)
| to_cache (path : string).

(** [mnist.load_data(path='mnist.npz')], relative to [~/.keras/datasets]. *)
Definition mnist_cache : string := "~/.keras/datasets/mnist.npz".

(** The configuration file Keras creates when it is imported without one. *)
Definition keras_config : string := "~/.keras/keras.json".

Definition output_of (c : call) : output :=
  match c with
  | mnist_load_data => to_cache mnist_cache
  | plot_model _ f _ => to_file f
  | model_summary _ | model_fit _ _ _ _ _ _ | model_evaluate _ _ _ _ | print _ _ => to_stdout
  | _ => no_output
  end.

(** The trace of calls, and the files that exist. *)
Record world := mk_world { trace : list event; files : list string }.

(** The files once [f] has been written: it is there, once. *)
Definition touch (f : string) (fs : list string) : list string :=
  if existsb (String.eqb f) fs then fs else fs ++ [f].

Definition log (c : call) (r : option exn) (w : world) : world :=
  mk_world (trace w ++ [mk_event c r])
           (match output_of c, r with
            | to_file f, None => touch f (files w)
            | to_cache f, None => touch f (files w)
            | _, _ => files w
            end).

(** The first cell's [from tensorflow.keras ... import ...]: importing
    Keras leaves its configuration file behind. *)
Definition import_keras (w : world) : world :=
  mk_world (trace w) (touch keras_config (files w)).

(** ** The notebook monad: framework, world, exceptions *)

Definition M (A : Type) : Type := framework -> world -> result A * world.

Definition ret {A} (a : A) : M A := fun _ w => (inr a, w).

Definition bind {A B} (m : M A) (k : A -> M B) : M B :=
  fun fw w =>
    match m fw w with
    | (inl e, w') => (inl e, w')
    | (inr a, w') => k a fw w'
    end.

(** [try: m except: h] -- the notebooks never use it; it is here so that
    their not using it is a statement about them. *)
Definition try_except {A} (m : M A) (h : exn -> M A) : M A :=
  fun fw w =>
    match m fw w with
    | (inl e, w') => h e fw w'
    | (inr a, w') => (inr a, w')
    end.

(** A call: it is logged; it raises what the framework makes it raise, or
    what its own semantics [sem] raises, or returns [sem]'s value. *)
Definition invoke {A} (c : call) (sem : framework -> list event -> result A) : M A :=
  fun fw w =>
    match fw_raises fw (trace w) c with
    | Some e => (inl e, log c (Some e) w)
    | None =>
        match sem fw (trace w) with
        | inl e => (inl e, log c (Some e) w)
        | inr a => (inr a, log c None w)
        end
    end.

Definition pure_call {A} (c : call) (v : result A) : M A :=
  invoke c (fun _ _ => v).

Declare Scope nb_scope.
Delimit Scope nb_scope with nb.
Notation "x <- m ;; k" := (bind m (fun x => k))
  (at level 61, m at next level, right associativity) : nb_scope.
Notation "m ;; k" := (bind m (fun _ => k))
  (at level 61, right associativity) : nb_scope.
Open Scope nb_scope.

(** [for i in range(n): s = body(i, s)] *)
Fixpoint for_in {S} (l : list Z) (body : Z -> S -> M S) (s : S) : M S :=
  match l with
  | [] => ret s
  | i :: l' => s' <- body i s ;; for_in l' body s'
  end.

Definition range (n : Z) : list Z := map Z.of_nat (seq 0 (Z.to_nat n)).

Definition run {A} (m : M A) (fw : framework) : result A * world :=
  m fw (mk_world [] []).

(** A notebook run in a session that starts from the world [w]: the
    imports, then the calls. *)
Definition session {A} (m : M A) (fw : framework) (w : world) : result A * world :=
  m fw (import_keras w).

(** ** The framework's API as notebook operations *)

Module api.

Definition is_new_Input (e : event) : bool :=
  match ev_call e with new_Input _ => true | _ => false end.

Definition load_data : M dataset :=
  invoke mnist_load_data (fun fw _ => inr (fw_dataset fw)).
Definition unique (a : np.ndarray np.uint8) : M (np.ndarray Z) :=
  pure_call (np_unique a) (inr (np.unique a)).
Definition len (a : np.ndarray Z) : M nat :=
  pure_call (len a) (np.len a).
Definition to_categorical (y : np.ndarray np.uint8) : M (np.ndarray F32.t) :=
  pure_call (utils_to_categorical y) (to_categorical y).
Definition shape (a : np.ndarray np.uint8) (i : nat) : M nat :=
  pure_call (shape_index a i) (np.shape_at a i).
Definition reshape (a : np.ndarray np.uint8) (s : nat) : M (np.ndarray np.uint8) :=
  pure_call (np_reshape a s) (np.reshape_images a s).
Definition astype (a : np.ndarray np.uint8) : M (np.ndarray F32.t) :=
  pure_call (astype_float32 a) (inr (np.astype_float32 a)).
Definition divide (a : np.ndarray F32.t) (n : Z) : M (np.ndarray F32.t) :=
  pure_call (true_divide a n) (inr (np.true_divide a n)).

(** Each [Input(...)] is a new tensor: it is numbered by the inputs
    created before it. *)
Definition Input (shape : list nat) : M keras.tensor :=
  invoke (new_Input shape)
    (fun _ tr => inr (keras.Input (length (filter is_new_Input tr)) shape)).
Definition Layer (l : keras.layer) : M keras.layer :=
  pure_call (new_layer l) (inr l).
Definition apply (l : keras.layer) (x : keras.tensor) : M keras.tensor :=
  pure_call (layer_call l x) (inr (keras.Apply l x)).
Definition concatenate (xs : list keras.tensor) : M keras.tensor :=
  pure_call (layers_concatenate xs) (inr (keras.concatenate xs)).

Definition Sequential : M keras.model :=
  pure_call new_Sequential (inr (keras.Sequential [])).
Definition add (m : keras.model) (l : keras.layer) : M keras.model :=
  pure_call (model_add m l)
    (match m with
     | keras.Sequential ls => inr (keras.Sequential (ls ++ [l]))
     | keras.Model _ _ _ => inl (Exn "AttributeError" "'Model' object has no attribute 'add'")
     end).
Definition Model (inputs : list keras.tensor) (outputs : keras.tensor) (name : string)
  : M keras.model :=
  pure_call (new_Model inputs outputs name) (inr (keras.Model inputs outputs name)).

Definition summary (m : keras.model) : M unit :=
  pure_call (model_summary m) (inr tt).
Definition compile (m : keras.model) (loss optimizer : string) (metrics : list string)
  : M unit :=
  pure_call (model_compile m loss optimizer metrics) (inr tt).
Definition fit (m : keras.model) (x : xdata) (y : np.ndarray F32.t)
    (validation_data : option (xdata * np.ndarray F32.t)) (epochs batch_size : Z)
  : M unit :=
  pure_call (model_fit m x y validation_data epochs batch_size) (inr tt).
Definition evaluate (m : keras.model) (x : xdata) (y : np.ndarray F32.t) (batch_size : Z)
  : M (F64.t * F64.t) :=
  invoke (model_evaluate m x y batch_size) (fun fw tr => inr (fw_score fw tr)).
Definition print (format : string) (arg : F64.t) : M unit :=
  pure_call (print format arg) (inr tt).
(** Imported by the Sequential notebook; its only use is commented out. *)
Definition plot_model (m : keras.model) (to_file : string) (show_shapes : bool) : M unit :=
  pure_call (plot_model m to_file show_shapes) (inr tt).

End api.

(** ** The notebooks *)

(** The variables a notebook leaves behind. *)
Record env := mk_env {
  env_num_labels : nat;
  env_x_train : np.ndarray F32.t;
  env_y_train : np.ndarray F32.t;
  env_x_test : np.ndarray F32.t;
  env_y_test : np.ndarray F32.t;
  env_model : keras.model;
  env_accuracy : F64.t
}.

(** The first cell of both notebooks: load MNIST, count the labels, make
    the labels categorical, reshape and normalize the images. *)
Record prepared := mk_prepared {
  num_labels : nat;
  image_size : nat;
  x_train : np.ndarray F32.t;
  y_train : np.ndarray F32.t;
  x_test : np.ndarray F32.t;
  y_test : np.ndarray F32.t
}.

Definition preprocess : M prepared :=
  ds <- api.load_data ;;
  let x_train := ds_x_train ds in
  let y_train := ds_y_train ds in
  let x_test := ds_x_test ds in
  let y_test := ds_y_test ds in
  u <- api.unique y_train ;;
  num_labels <- api.len u ;;
  y_train <- api.to_categorical y_train ;;
  y_test <- api.to_categorical y_test ;;
  image_size <- api.shape x_train 1 ;;
  x_train <- api.reshape x_train image_size ;;
  x_test <- api.reshape x_test image_size ;;
  x_train <- api.astype x_train ;;
  x_train <- api.divide x_train 255 ;;
  x_test <- api.astype x_test ;;
  x_test <- api.divide x_test 255 ;;
  ret (mk_prepared num_labels image_size x_train y_train x_test y_test).

Definition batch_size : Z := 128.
Definition kernel_size : Z := 3.
Definition filters : Z := 64.

(** [versions/2020/cnn/code/cnn-mnist.ipynb] *)
Definition cnn_mnist : M env :=
  p <- preprocess ;;
  let input_shape := [image_size p; image_size p; 1%nat] in
  model <- api.Sequential ;;
  l <- api.Layer (keras.Conv2D filters kernel_size (Some "same") (Some "relu") None
                    (Some input_shape)) ;;
  model <- api.add model l ;;
  l <- api.Layer keras.MaxPooling2D ;;
  model <- api.add model l ;;
  l <- api.Layer (keras.Conv2D filters kernel_size (Some "same") (Some "relu") None None) ;;
  model <- api.add model l ;;
  l <- api.Layer keras.MaxPooling2D ;;
  model <- api.add model l ;;
  l <- api.Layer (keras.Conv2D filters kernel_size (Some "same") (Some "relu") None None) ;;
  model <- api.add model l ;;
  l <- api.Layer keras.Flatten ;;
  model <- api.add model l ;;
  l <- api.Layer (keras.Dense (num_labels p) None) ;;
  model <- api.add model l ;;
  l <- api.Layer (keras.Activation "softmax") ;;
  model <- api.add model l ;;
  api.summary model ;;
  api.compile model "categorical_crossentropy" "sgd" ["accuracy"%string] ;;
  api.fit model (one_array (x_train p)) (y_train p) None 20 batch_size ;;
  score <- api.evaluate model (one_array (x_test p)) (y_test p) batch_size ;;
  let '(loss, acc) := score in
  api.print "\nTest accuracy: %.1f%%" (F64.mul (F64.of_Z 100) acc) ;;
  ret (mk_env (num_labels p) (x_train p) (y_train p) (x_test p) (y_test p) model acc).

(** The Y-Network notebook. *)
Definition depth : Z := 3.

(** One branch: [for i in range(depth): x = Conv2D(...)(x);
    if i < depth - 1: x = MaxPooling2D()(x)] *)
Definition branch (dilation_rate : option Z) (x : keras.tensor) : M keras.tensor :=
  for_in (range depth)
    (fun i x =>
       l <- api.Layer (keras.Conv2D filters kernel_size (Some "same") (Some "relu")
                         dilation_rate None) ;;
       x <- api.apply l x ;;
       if i <? depth - 1 then
         l <- api.Layer keras.MaxPooling2D ;;
         api.apply l x
       else ret x)
    x.

Definition y_network : M env :=
  p <- preprocess ;;
  let input_shape := [image_size p; image_size p; 1%nat] in
  left_inputs <- api.Input input_shape ;;
  x <- branch None left_inputs ;;
  right_inputs <- api.Input input_shape ;;
  y <- branch (Some 2) right_inputs ;;
  y <- api.concatenate [x; y] ;;
  l <- api.Layer keras.Flatten ;;
  y <- api.apply l y ;;
  l <- api.Layer (keras.Dense (num_labels p) (Some "softmax"%string)) ;;
  outputs <- api.apply l y ;;
  model <- api.Model [left_inputs; right_inputs] outputs "Y_Network" ;;
  api.summary model ;;
  api.compile model "categorical_crossentropy" "sgd" ["accuracy"%string] ;;
  api.fit model (array_list [x_train p; x_train p]) (y_train p)
    (Some (array_list [x_test p; x_test p], y_test p)) 20 batch_size ;;
  score <- api.evaluate model (array_list [x_test p; x_test p]) (y_test p) batch_size ;;
  api.print "\nTest accuracy: %.1f%%" (F64.mul (F64.of_Z 100) (snd score)) ;;
  ret (mk_env (num_labels p) (x_train p) (y_train p) (x_test p) (y_test p) model (snd score)).

(** The two notebooks of the repository. *)
Definition notebooks : list (M env) := [cnn_mnist; y_network].

(** ** A small concrete framework, for evaluating the notebooks *)

Module sample.

(** Two 4x4 training images labelled 0 and 1, one test image labelled 1. *)
Definition tiny : dataset :=
  mk_dataset
    (np.mk_ndarray [2%nat; 4%nat; 4%nat]
       [x00; xff; x80; x01; x10; x20; xfe; x7f;
        x02; x03; x04; x05; x06; x07; x08; x09;
        xf0; xe0; xd0; xc0; xb0; xa0; x90; x80;
        x70; x60; x50; x40; x30; x20; x10; x00]%byte)
    (np.mk_ndarray [2%nat] [x00; x01]%byte)
    (np.mk_ndarray [1%nat; 4%nat; 4%nat]
       [xff; x00; x03; x40; x11; x22; x33; x44;
        x55; x66; x77; x88; x99; xaa; xbb; xcc]%byte)
    (np.mk_ndarray [1%nat] [x01]%byte).

(** No call raises; [evaluate] returns loss 0 and accuracy 1. *)
Definition quiet : framework :=
  mk_framework (fun _ _ => None) tiny (fun _ => (S754_zero false, F64.of_Z 1)).

(** The framework that makes [fit] raise. *)
Definition fit_fails : framework :=
  mk_framework
    (fun _ c => match c with
                | model_fit _ _ _ _ _ _ => Some (Exn "ResourceExhaustedError" "OOM")
                | _ => None
                end)
    tiny (fun _ => (S754_zero false, F64.of_Z 1)).

End sample.

(** ** The pipeline phases of a trace *)

Inductive phase := Load | Build | Compile | Fit | Evaluate | Print.

(** Loading covers the loader and the preparation of its arrays; building
    covers every layer, tensor and model construction and the summary. *)
Definition phase_of (c : call) : phase :=
  match c with
  | mnist_load_data | np_unique _ | len _ | utils_to_categorical _
  | shape_index _ _ | np_reshape _ _ | astype_float32 _ | true_divide _ _ => Load
  | new_Input _ | new_layer _ | layer_call _ _ | layers_concatenate _
  | new_Sequential | model_add _ _ | new_Model _ _ _ | model_summary _
  | plot_model _ _ _ => Build
  | model_compile _ _ _ _ => Compile
  | model_fit _ _ _ _ _ _ => Fit
  | model_evaluate _ _ _ _ => Evaluate
  | print _ _ => Print
  end.

Definition phase_eqb (p q : phase) : bool :=
  match p, q with
  | Load, Load | Build, Build | Compile, Compile
  | Fit, Fit | Evaluate, Evaluate | Print, Print => true
  | _, _ => false
  end.

Definition phases (tr : list event) : list phase :=
  map (fun e => phase_of (ev_call e)) tr.

(** Consecutive repetitions of a phase count as one stage. *)
Fixpoint stages (l : list phase) : list phase :=
  match l with
  | [] => []
  | p :: r =>
      match r with
      | q :: _ => if phase_eqb p q then stages r else p :: stages r
      | [] => [p]
      end
  end.

Definition calls_in (p : phase) (tr : list event) : nat :=
  length (filter (phase_eqb p) (phases tr)).

Definition pipeline : list phase := [Load; Build; Compile; Fit; Evaluate; Print].

Definition succeeded {A} (r : result A) : bool :=
  match r with inr _ => true | inl _ => false end.

(** * Properties of runs *)

(** ** Normalized pixels *)

(** [x.astype('float32') / 255] on one pixel. *)
Definition normalize (b : np.uint8) : F32.t :=
  F32.div (F32.of_Z (np.uint8_val b)) (F32.of_Z 255).

Definition in_unit_interval (v : F32.t) : bool :=
  F32.leb F32.zero v && F32.leb v F32.one.

(** The [x] arguments of a call to [fit] (its validation data included) or
    [evaluate], and the image arrays in them. *)
Definition inputs_of (c : call) : list xdata :=
  match c with
  | model_fit _ x _ v _ _ =>
      x :: match v with Some (xv, _) => [xv] | None => [] end
  | model_evaluate _ x _ _ => [x]
  | _ => []
  end.

Definition images_of (c : call) : list (np.ndarray F32.t) :=
  flat_map arrays_of (inputs_of c).

(** The label arrays of a call to [fit] or [evaluate]. *)
Definition labels_of (c : call) : list (np.ndarray F32.t) :=
  match c with
  | model_fit _ _ y v _ _ =>
      y :: match v with Some (_, yv) => [yv] | None => [] end
  | model_evaluate _ _ y _ => [y]
  | _ => []
  end.

(** An image array that is the loader's training or test images,
    normalized pixel by pixel. *)
Definition normalized_images (fw : framework) (a : np.ndarray F32.t) : Prop :=
  np.data a = map normalize (np.data (ds_x_train (fw_dataset fw)))
  \/ np.data a = map normalize (np.data (ds_x_test (fw_dataset fw))).

(** Every image array a run passes to [fit] or [evaluate] is the loader's
    images normalized, and all its elements lie in [0, 1]. *)
Definition normalized_inputs (fw : framework) (o : result env * world) : Prop :=
  Forall (fun ev =>
            Forall (fun a => normalized_images fw a
                             /\ Forall (fun v => in_unit_interval v = true) (np.data a))
                   (images_of (ev_call ev)))
         (trace (snd o)).

(** ** One-hot labels *)

Definition is_one (v : F32.t) : bool := F32.eqb v F32.one.
Definition is_zero (v : F32.t) : bool := F32.eqb v F32.zero.

(** Exactly one entry equal to 1, every other entry 0. *)
Definition one_hot (row : list F32.t) : bool :=
  (length (filter is_one row) =? 1)%nat
  && forallb (fun v => is_one v || is_zero v) row.

(** An array holds as many elements as its shape says. *)
Definition well_formed {A} (a : np.ndarray A) : Prop :=
  length (np.data a) = np.size a.

Definition labels (a : np.ndarray np.uint8) : list Z :=
  map np.uint8_val (np.data a).

(** A label array that is [to_categorical] of the loader's training or
    test labels. *)
Definition categorical_labels (fw : framework) (y : np.ndarray F32.t) : Prop :=
  to_categorical (ds_y_train (fw_dataset fw)) = inr y
  \/ to_categorical (ds_y_test (fw_dataset fw)) = inr y.

(** The labels of a digit dataset with [k] classes, as MNIST's are with ten:
    the training labels are exactly [0 .. k-1], and the test labels lie in
    that range and reach its top. *)
Definition digit_labels (ds : dataset) (k : nat) : Prop :=
  (forall v, In v (labels (ds_y_train ds)) <-> 0 <= v < Z.of_nat k)
  /\ (forall v, In v (labels (ds_y_test ds)) -> v < Z.of_nat k)
  /\ In (Z.of_nat k - 1) (labels (ds_y_test ds)).

(** The number of distinct values of a list. *)
Definition distinct (l : list Z) : nat := length (nodup Z.eq_dec l).

(** ** The order of the pipeline *)

(** The text of the last line of both notebooks. *)
Definition accuracy_format : string := "\nTest accuracy: %.1f%%".

(** What a run looks like as a pipeline: its stages are an initial part of
    load, build, compile, fit, evaluate, print; none of compile, fit and
    evaluate is called twice; and a run that ends without an exception went
    through all six stages, with exactly one compile, fit and evaluate,
    and printed last, as a percentage, the accuracy it leaves behind. *)
Definition linear_pipeline (o : result env * world) : Prop :=
  let tr := trace (snd o) in
  stages (phases tr) = firstn (length (stages (phases tr))) pipeline
  /\ (calls_in Compile tr <= 1)%nat
  /\ (calls_in Fit tr <= 1)%nat
  /\ (calls_in Evaluate tr <= 1)%nat
  /\ (succeeded (fst o) = true ->
      stages (phases tr) = pipeline
      /\ calls_in Compile tr = 1%nat
      /\ calls_in Fit tr = 1%nat
      /\ calls_in Evaluate tr = 1%nat
      /\ forall e, fst o = inr e ->
           last (map ev_call tr) mnist_load_data
           = print accuracy_format (F64.mul (F64.of_Z 100) (env_accuracy e))).

(** The arrays the pipeline works on: the loader's training (or test)
    images normalized, with the loader's training (or test) labels made
    categorical. *)
Definition on_training_data (fw : framework) (x : xdata) (y : np.ndarray F32.t)
  : Prop :=
  arrays_of x <> []
  /\ Forall (fun a => np.data a
                      = map normalize (np.data (ds_x_train (fw_dataset fw))))
            (arrays_of x)
  /\ to_categorical (ds_y_train (fw_dataset fw)) = inr y.

Definition on_test_data (fw : framework) (x : xdata) (y : np.ndarray F32.t)
  : Prop :=
  arrays_of x <> []
  /\ Forall (fun a => np.data a
                      = map normalize (np.data (ds_x_test (fw_dataset fw))))
            (arrays_of x)
  /\ to_categorical (ds_y_test (fw_dataset fw)) = inr y.

(** [fit] is given the training data (and, when it is given validation
    data, the test data); [evaluate] is given the test data. *)
Definition works_on_loaded_data (fw : framework) (ev : event) : Prop :=
  match ev_call ev with
  | model_fit _ x y v _ _ =>
      on_training_data fw x y
      /\ match v with
         | Some (xv, yv) => on_test_data fw xv yv
         | None => True
         end
  | model_evaluate _ x y _ => on_test_data fw x y
  | _ => True
  end.

(** The accuracy -- the second of the two numbers -- that each [evaluate]
    of a trace returned; [before] is the trace up to the call. *)
Fixpoint accuracies_from (fw : framework) (before tr : list event) : list F64.t :=
  match tr with
  | [] => []
  | ev :: r =>
      match ev_call ev, ev_raised ev with
      | model_evaluate _ _ _ _, None => [snd (fw_score fw before)]
      | _, _ => []
      end ++ accuracies_from fw (before ++ [ev]) r
  end.

Definition accuracies (fw : framework) (tr : list event) : list F64.t :=
  accuracies_from fw [] tr.

(** What a trace prints with [print]. *)
Definition printed (tr : list event) : list (string * F64.t) :=
  flat_map (fun ev => match ev_call ev with
                      | print f a => [(f, a)]
                      | _ => []
                      end) tr.

(** What a run works on and what it prints: [fit] gets the training
    data, [evaluate] the test data, and what is printed is, as a
    percentage, the accuracy that [evaluate] returned. *)
Definition pipeline_on_data (fw : framework) (o : result env * world) : Prop :=
  Forall (works_on_loaded_data fw) (trace (snd o))
  /\ printed (trace (snd o))
     = map (fun a => (accuracy_format, F64.mul (F64.of_Z 100) a))
           (accuracies fw (trace (snd o))).

(** ** Exceptions *)

Definition returned (ev : event) : Prop := ev_raised ev = None.

(** The outcome of a run in which no exception was handled: every call but
    the last returned, and the run ended in an exception exactly when its
    last call raised it. *)
Definition unhandled {A} (o : result A * world) : Prop :=
  match fst o with
  | inl e => exists tr c, trace (snd o) = tr ++ [mk_event c (Some e)]
                          /\ Forall returned tr
  | inr _ => Forall returned (trace (snd o))
  end.

Definition propagating {A} (m : M A) : Prop :=
  forall fw w, Forall returned (trace w) -> unhandled (m fw w).

(** ** Output *)

(** A call that is given no file to write: it is silent, it prints, or
    it is the loader keeping its cache. *)
Definition takes_no_file (ev : event) : Prop :=
  match output_of (ev_call ev) with
  | to_file _ => False
  | to_cache f => f = mnist_cache
  | _ => True
  end.

Definition is_plot_model (c : call) : bool :=
  match c with plot_model _ _ _ => true | _ => false end.

(** The files that are the framework's own. *)
Definition framework_files : list string := [keras_config; mnist_cache].

(** A session of [m] leaves the files as they were, whatever they were. *)
Definition leaves_files_alone {A} (m : M A) : Prop :=
  forall fw w, files (snd (session m fw w)) = files w.

(** Since the files were [F] and the trace [tr0]: no file is gone, every
    new file is one of the framework's own, nothing changed if those were
    there already, and no call was given a file to write. *)
Definition framework_only (F : list string) (tr0 : list event) (w : world) : Prop :=
  incl F (files w)
  /\ (forall f, In f (files w) -> In f F \/ In f framework_files)
  /\ (incl framework_files F -> files w = F)
  /\ exists tr, trace w = tr0 ++ tr /\ Forall takes_no_file tr.

(** A session of [m], from any world: it removes no file and creates none
    but the framework's own; it leaves the files as they were when those
    exist already; and none of its calls is given a file to write, none is
    [plot_model]. *)
Definition writes_framework_files_only {A} (m : M A) : Prop :=
  forall fw w,
    incl (files w) (files (snd (session m fw w)))
    /\ (forall f, In f (files (snd (session m fw w))) ->
                  In f (files w) \/ In f framework_files)
    /\ (incl framework_files (files w) -> files (snd (session m fw w)) = files w)
    /\ exists tr,
         trace (snd (session m fw w)) = trace w ++ tr
         /\ Forall (fun ev => takes_no_file ev
                              /\ is_plot_model (ev_call ev) = false) tr.

(** [I] holds of the world after [m] whenever it held before. *)
Definition invariant {A} (I : world -> Prop) (m : M A) : Prop :=
  forall fw w, I w -> I (snd (m fw w)).

(** ** Architecture *)

(** A layer's configuration, the arguments it leaves out taken at Keras'
    defaults; the [input_shape] of a first layer declares the model's input
    and is not part of it. *)
Inductive layer_config :=
| conv2d (filters kernel_size : Z) (padding activation : string) (dilation : Z)
| max_pooling2d
| flatten
| dense (units : nat) (activation : string)
| activation (fn : string).

Definition config_of (l : keras.layer) : layer_config :=
  match l with
  | keras.Conv2D f k p a d _ =>
      conv2d f k (keras.padding_of p) (keras.activation_of a) (keras.dilation_of d)
  | keras.MaxPooling2D => max_pooling2d
  | keras.Flatten => flatten
  | keras.Dense n a => dense n (keras.activation_of a)
  | keras.Activation f => activation f
  end.

Definition with_dilation (d : Z) (c : layer_config) : layer_config :=
  match c with
  | conv2d f k p a _ => conv2d f k p a d
  | _ => c
  end.

(** The layers of a Sequential model before its [Flatten], and from it on. *)
Fixpoint features (ls : list keras.layer) : list keras.layer :=
  match ls with
  | [] => []
  | keras.Flatten :: _ => []
  | l :: r => l :: features r
  end.

Fixpoint classifier (ls : list keras.layer) : list keras.layer :=
  match ls with
  | [] => []
  | keras.Flatten :: _ => ls
  | _ :: r => classifier r
  end.

Definition sequential_layers (m : keras.model) : list keras.layer :=
  match m with
  | keras.Sequential ls => ls
  | keras.Model _ _ _ => []
  end.

(** Every branch of the Y-Network has, layer by layer, the configuration
    of the Sequential stack. *)
Definition same_branch_configuration (seq ynet : keras.model) : Prop :=
  forall b, In b (keras.branches ynet) ->
            map config_of (keras.chain b)
            = map config_of (features (sequential_layers seq)).

(** The models a trace constructs, trains and evaluates. *)
Definition constructed (tr : list event) : list call :=
  filter (fun c => match c with
                   | new_Sequential | new_Model _ _ _ => true
                   | _ => false
                   end) (map ev_call tr).

Definition trained (tr : list event)
  : list (keras.model * xdata * np.ndarray F32.t) :=
  flat_map (fun ev => match ev_call ev with
                      | model_fit m x y _ _ _ => [(m, x, y)]
                      | _ => []
                      end) tr.

Definition evaluated (tr : list event)
  : list (keras.model * xdata * np.ndarray F32.t) :=
  flat_map (fun ev => match ev_call ev with
                      | model_evaluate m x y _ => [(m, x, y)]
                      | _ => []
                      end) tr.

(** The arrays of a run that ends without an exception are the loader's:
    the images normalized, the labels made categorical. *)
Definition prepared_from (fw : framework) (e : env) : Prop :=
  np.data (env_x_train e) = map normalize (np.data (ds_x_train (fw_dataset fw)))
  /\ np.data (env_x_test e) = map normalize (np.data (ds_x_test (fw_dataset fw)))
  /\ to_categorical (ds_y_train (fw_dataset fw)) = inr (env_y_train e)
  /\ to_categorical (ds_y_test (fw_dataset fw)) = inr (env_y_test e).

(** ** Feeding the Y-Network *)

(** A list of two input arrays that are one and the same array. *)
Definition same_array_twice (x : xdata) : Prop :=
  exists a, x = array_list [a; a].

(** Every [x] a run passes to [fit], as validation data, or to [evaluate]
    is one array given twice. *)
Definition fed_twice (o : result env * world) : Prop :=
  Forall (fun ev => Forall same_array_twice (inputs_of (ev_call ev)))
         (trace (snd o)).

(** ** The two architectures, as the notebooks' texts describe them *)

(** A convolution of 64 filters, 3x3 kernel, ['same'] padding and ReLU. *)
Definition conv (dilation_rate : option Z) (input_shape : option (list nat))
  : keras.layer :=
  keras.Conv2D 64 3 (Some "same") (Some "relu") dilation_rate input_shape.

(** Conv-Pool-Conv-Pool-Conv. *)
Definition stack_of_three (dilation_rate : option Z)
    (input_shape : option (list nat)) : list keras.layer :=
  [conv dilation_rate input_shape; keras.MaxPooling2D;
   conv dilation_rate None; keras.MaxPooling2D;
   conv dilation_rate None].

Definition apply_all (ls : list keras.layer) (x : keras.tensor) : keras.tensor :=
  fold_left (fun t l => keras.Apply l t) ls x.

(** The plain stack over images of side [s] with [n] classes. *)
Definition plain_stack (s n : nat) : keras.model :=
  keras.Sequential
    (stack_of_three None (Some [s; s; 1%nat])
     ++ [keras.Flatten; keras.Dense n None; keras.Activation "softmax"]).

(** The Y-shaped network: two inputs, a stack on each, the right one
    dilated, concatenated, flattened, and a softmax [Dense] head. *)
Definition y_shaped (s n : nat) : keras.model :=
  let left_inputs := keras.Input 0 [s; s; 1%nat] in
  let right_inputs := keras.Input 1 [s; s; 1%nat] in
  keras.Model [left_inputs; right_inputs]
    (keras.Apply (keras.Dense n (Some "softmax"))
       (keras.Apply keras.Flatten
          (keras.concatenate
             [apply_all (stack_of_three None None) left_inputs;
              apply_all (stack_of_three (Some 2) None) right_inputs])))
    "Y_Network".

(** What a run of the Sequential notebook that ends without an exception
    leaves behind: the one model it built, trained on the training images
    and evaluated on the test images, each passed as a single array. *)
Definition cnn_mnist_outcome (fw : framework) (e : env) (w : world) : Prop :=
  exists s,
    env_model e = plain_stack s (env_num_labels e)
    /\ env_num_labels e
       = length (np.unique_values (labels (ds_y_train (fw_dataset fw))))
    /\ hd_error (map ev_call (trace w)) = Some mnist_load_data
    /\ constructed (trace w) = [new_Sequential]
    /\ trained (trace w)
       = [(env_model e, one_array (env_x_train e), env_y_train e)]
    /\ evaluated (trace w)
       = [(env_model e, one_array (env_x_test e), env_y_test e)]
    /\ prepared_from fw e.

(** The same for the Y-Network notebook, whose model takes two inputs. *)
Definition y_network_outcome (fw : framework) (e : env) (w : world) : Prop :=
  exists s,
    env_model e = y_shaped s (env_num_labels e)
    /\ env_num_labels e
       = length (np.unique_values (labels (ds_y_train (fw_dataset fw))))
    /\ hd_error (map ev_call (trace w)) = Some mnist_load_data
    /\ constructed (trace w)
       = match env_model e with
         | keras.Model i o n => [new_Model i o n]
         | keras.Sequential _ => []
         end
    /\ trained (trace w)
       = [(env_model e, array_list [env_x_train e; env_x_train e], env_y_train e)]
    /\ evaluated (trace w)
       = [(env_model e, array_list [env_x_test e; env_x_test e], env_y_test e)]
    /\ prepared_from fw e.

(** Every label array a run passes to [fit] or [evaluate] is
    [to_categorical] of the loader's labels, and each of its rows is
    one-hot and as wide as the array's last axis. *)
Definition one_hot_labels (fw : framework) (o : result env * world) : Prop :=
  Forall (fun ev =>
            Forall (fun y =>
                      categorical_labels fw y
                      /\ Forall (fun row => one_hot row = true
                                            /\ length row = last (np.shape y) 1%nat)
                                (np.rows y))
                   (labels_of (ev_call ev)))
         (trace (snd o)).

(** Every label array a run passes to [fit] or [evaluate] has width [k]. *)
Definition labels_width (k : nat) (o : result env * world) : Prop :=
  Forall (fun ev => Forall (fun y => last (np.shape y) 1%nat = k)
                           (labels_of (ev_call ev)))
         (trace (snd o)).

Definition categorical_passed (fw : framework) (o : result env * world) : Prop :=
  Forall (fun ev => Forall (categorical_labels fw) (labels_of (ev_call ev)))
         (trace (snd o)).

(** ** Compilation *)

Definition configured_optimizer (c : call) : option string :=
  match c with model_compile _ _ o _ => Some o | _ => None end.
Definition configured_loss (c : call) : option string :=
  match c with model_compile _ l _ _ => Some l | _ => None end.

(** The models a trace compiles, and those it fits or evaluates. *)
Definition compiled_models (tr : list event) : list keras.model :=
  flat_map (fun ev => match ev_call ev with
                      | model_compile m _ _ _ => [m]
                      | _ => []
                      end) tr.

Definition used_models (tr : list event) : list keras.model :=
  flat_map (fun ev => match ev_call ev with
                      | model_fit m _ _ _ _ _ | model_evaluate m _ _ _ => [m]
                      | _ => []
                      end) tr.

(** Every optimizer a run configures is ['sgd'] and every loss is
    ['categorical_crossentropy']; what it compiles is the model it built,
    the plain stack or the Y-shaped network with all its layers; whatever
    it fits or evaluates is that compiled model; and a run that ends
    without an exception compiled exactly once, and fitted and evaluated
    the one model it compiled. *)
Definition sgd_compiled (o : result env * world) : Prop :=
  let tr := trace (snd o) in
  Forall (fun ev =>
            (forall opt, configured_optimizer (ev_call ev) = Some opt -> opt = "sgd")
            /\ (forall l, configured_loss (ev_call ev) = Some l ->
                          l = "categorical_crossentropy"))
         tr
  /\ Forall (fun m => exists s n, m = plain_stack s n \/ m = y_shaped s n)
            (compiled_models tr)
  /\ (forall m, In m (used_models tr) -> compiled_models tr = [m])
  /\ (succeeded (fst o) = true ->
      calls_in Compile tr = 1%nat
      /\ exists m, compiled_models tr = [m]
                   /\ map (fun t => fst (fst t)) (trained tr) = [m]
                   /\ map (fun t => fst (fst t)) (evaluated tr) = [m]).
(** * Further properties of runs *)

(** ** Datasets the preparation accepts *)

(** A framework that makes no call raise: what is left are the exceptions
    of the calls' own semantics. *)
Definition never_raises (fw : framework) : Prop :=
  forall tr c, fw_raises fw tr c = None.

Definition nonempty {A} (l : list A) : bool :=
  match l with [] => false | _ :: _ => true end.

(** Both label arrays have elements; the training images have a second
    axis, of a length [s] other than 0; and [s * s] divides the sizes of
    the training and of the test images. *)
Definition runnable (ds : dataset) : bool :=
  nonempty (np.data (ds_y_train ds))
  && nonempty (np.data (ds_y_test ds))
  && match nth_error (np.shape (ds_x_train ds)) 1 with
     | Some s =>
         negb (s * s * 1 =? 0)%nat
         && (np.size (ds_x_train ds) mod (s * s * 1) =? 0)%nat
         && (np.size (ds_x_test ds) mod (s * s * 1) =? 0)%nat
     | None => false
     end.

(** How a run ends under a framework that raises nothing. *)
Definition quiet_outcome (ds : dataset) (o : result env * world) : Prop :=
  if runnable ds then succeeded (fst o) = true
  else exists e,
      fst o = inl e
      /\ (exn_class e = "ValueError" \/ exn_class e = "IndexError")
      /\ Forall (fun p => p = Load) (phases (trace (snd o))).

(** Whatever the framework does, a dataset that is not runnable ends the
    run in an exception, before anything but the loading was called. *)
Definition stops_while_loading (o : result env * world) : Prop :=
  exists e,
    fst o = inl e
    /\ Forall (fun p => p = Load) (phases (trace (snd o))).

(** ** More sample frameworks *)

Module edge.

Definition pixels (n : nat) : list np.uint8 := repeat x80%byte n.

(** The loader returns images but no labels. *)
Definition unlabelled : framework :=
  mk_framework (fun _ _ => None)
    (mk_dataset
       (np.mk_ndarray [1%nat; 4%nat; 4%nat] (pixels 16))
       (np.mk_ndarray [0%nat] [])
       (np.mk_ndarray [1%nat; 4%nat; 4%nat] (pixels 16))
       (np.mk_ndarray [0%nat] []))
    (fun _ => (S754_zero false, S754_zero false)).

(** One training image of 4 rows and 8 columns and one test image of 4
    rows and 4 columns. *)
Definition oblong : framework :=
  mk_framework (fun _ _ => None)
    (mk_dataset
       (np.mk_ndarray [1%nat; 4%nat; 8%nat] (pixels 32))
       (np.mk_ndarray [2%nat] [x00; x01]%byte)
       (np.mk_ndarray [1%nat; 4%nat; 4%nat] (pixels 16))
       (np.mk_ndarray [1%nat] [x01]%byte))
    (fun _ => (S754_zero false, S754_zero false)).


End edge.

(** ** Shapes *)

(** The image side is the length of the second axis of the training
    images; training and test images are both regrouped into images of
    that side with one channel, and the model takes input of that shape. *)
Definition prepared_shapes (fw : framework) (e : env) : Prop :=
  exists s,
    nth_error (np.shape (ds_x_train (fw_dataset fw))) 1 = Some s
    /\ (s * s * 1)%nat <> 0%nat
    /\ np.shape (env_x_train e)
       = [(np.size (ds_x_train (fw_dataset fw)) / (s * s * 1))%nat; s; s; 1%nat]
    /\ np.shape (env_x_test e)
       = [(np.size (ds_x_test (fw_dataset fw)) / (s * s * 1))%nat; s; s; 1%nat]
    /\ (env_model e = plain_stack s (env_num_labels e)
        \/ env_model e = y_shaped s (env_num_labels e)).

(** ** Reading labels back *)

(** The position of the first entry equal to 1. *)
Fixpoint find_one (row : list F32.t) : option nat :=
  match row with
  | [] => None
  | v :: r => if is_one v then Some 0%nat else option_map S (find_one r)
  end.

(** The class each row of a categorical array stands for. *)
Definition decode (y : np.ndarray F32.t) : list (option nat) :=
  map find_one (np.rows y).

Definition classes (a : np.ndarray np.uint8) : list (option nat) :=
  map (fun v => Some (Z.to_nat v)) (labels a).

(** ** Validation and evaluation data *)

Definition validation_of (ev : event) : list (xdata * np.ndarray F32.t) :=
  match ev_call ev with
  | model_fit _ _ _ (Some v) _ _ => [v]
  | _ => []
  end.

Definition evaluation_of (ev : event) : list (xdata * np.ndarray F32.t) :=
  match ev_call ev with
  | model_evaluate _ x y _ => [(x, y)]
  | _ => []
  end.

(** Whatever a run evaluates on is what it validated on during [fit]. *)
Definition validated_on_evaluation_data (o : result env * world) : Prop :=
  forall d, In d (flat_map evaluation_of (trace (snd o))) ->
            flat_map validation_of (trace (snd o)) = [d].

(** ** The model a call acts on *)

Definition model_of (c : call) : option keras.model :=
  match c with
  | model_summary m | plot_model m _ _ | model_compile m _ _ _
  | model_fit m _ _ _ _ _ | model_evaluate m _ _ _ => Some m
  | _ => None
  end.

(** The number of layers of the model each [model.add] is called on. *)
Definition added_to (tr : list event) : list nat :=
  flat_map (fun ev => match ev_call ev with
                      | model_add m _ => [length (sequential_layers m)]
                      | _ => []
                      end) tr.

(** Every [summary], [compile], [fit] and [evaluate] of a run acts on a
    model with all its layers, and the calls to [add] find a model of 0, 1,
    2, ... layers, in this order. *)
Definition acts_on_whole_model (o : result env * world) : Prop :=
  Forall (fun ev => forall m, model_of (ev_call ev) = Some m ->
                              exists s n, m = plain_stack s n \/ m = y_shaped s n)
         (trace (snd o))
  /\ added_to (trace (snd o)) = seq 0 (length (added_to (trace (snd o)))).

(** ** The units of the head and the width of the labels *)




(** ** Normalization keeps pixels apart *)

(** Every pixel value, from 0 to 255. *)
Definition all_pixels : list np.uint8 :=
  map (fun n => match Byte.of_N (N.of_nat n) with
                | Some b => b
                | None => x00%byte
                end) (seq 0 256).

Definition increasing_from (b1 : np.uint8) : bool :=
  forallb (fun b2 => implb (np.uint8_val b1 <? np.uint8_val b2)
                           (SFltb (normalize b1) (normalize b2)))
          all_pixels.

(** * Proofs *)

(** ** Stepping through a notebook *)

Lemma bind_assoc {A B C} (m : M A) (f : A -> M B) (g : B -> M C) fw w :
  bind (bind m f) g fw w = bind m (fun a => bind (f a) g) fw w.
Proof.
  unfold bind. destruct (m fw w) as [[e | a] w']; reflexivity.
Qed.

Lemma bind_ret {A B} (a : A) (k : A -> M B) fw w :
  bind (ret a) k fw w = k a fw w.
Proof. reflexivity. Qed.

(** A call followed by the rest of the notebook: either the call raises
    and the notebook ends there, or it returns and the rest runs. *)
Lemma invoke_bind_cases {A B} (c : call) sem (k : A -> M B) fw w
    (G : result B * world -> Prop) :
  (forall e, G (inl e, log c (Some e) w)) ->
  (forall a, fw_raises fw (trace w) c = None ->
             sem fw (trace w) = inr a ->
             G (k a fw (log c None w))) ->
  G (bind (invoke c sem) k fw w).
Proof.
  intros Hraise Hreturn. unfold bind, invoke.
  destruct (fw_raises fw (trace w) c) as [e |] eqn:Hfw; [apply Hraise |].
  destruct (sem fw (trace w)) as [e | a] eqn:Hsem; [apply Hraise |].
  now apply Hreturn.
Qed.

Lemma range_depth : range depth = [0; 1; 2].
Proof. reflexivity. Qed.

Ltac unfold_api :=
  unfold api.load_data, api.unique, api.len, api.to_categorical, api.shape,
    api.reshape, api.astype, api.divide, api.Input, api.Layer, api.apply,
    api.concatenate, api.Sequential, api.add, api.Model, api.summary,
    api.compile, api.fit, api.evaluate, api.print, pure_call.

Ltac unfold_notebook :=
  unfold run, cnn_mnist, y_network, preprocess, branch;
  rewrite ?range_depth; cbn [for_in];
  unfold_api; cbv beta zeta.

(** One step: reassociate, or split on the next call.  [leaf] closes the
    case where the call raised. *)
Ltac step leaf :=
  lazymatch goal with
  | |- _ (bind (bind _ _) _ _ _) => rewrite bind_assoc
  | |- _ (bind (ret _) _ _ _) => rewrite bind_ret; cbv beta
  | |- _ (bind (if ?b then _ else _) _ _ _) =>
      let b' := eval vm_compute in b in
      change b with b'; cbv iota
  | |- _ (bind (invoke _ _) _ _ _) =>
      apply invoke_bind_cases;
      [ intros ?e; leaf
      | let a := fresh "v" in
        let Hq := fresh "Hquiet" in
        let Hv := fresh "Hval" in
        intros a Hq Hv; clear Hq;
        try (injection Hv as Hv; subst a);
        cbv beta ]
  | |- _ ((let '(_, _) := ?s in _) _ _) => destruct s
  end.

Ltac as_outcome G :=
  match goal with
  | |- context [run ?m ?fw] => pattern (run m fw)
  end;
  match goal with
  | |- ?F _ => set (G := F)
  end.

Ltac steps leaf :=
  repeat (step leaf; cbn [num_labels image_size x_train y_train x_test y_test]).

(** ** Normalized pixels *)

Lemma normalize_in_unit_interval (b : np.uint8) :
  in_unit_interval (normalize b) = true.
Proof. destruct b; vm_compute; reflexivity. Qed.

Lemma normalized_data (a : np.ndarray np.uint8) :
  np.data (np.true_divide (np.astype_float32 a) 255) = map normalize (np.data a).
Proof.
  unfold np.true_divide, np.astype_float32, normalize; cbn [np.data].
  now rewrite map_map.
Qed.

Lemma reshape_images_data {A} (a a' : np.ndarray A) s :
  np.reshape_images a s = inr a' -> np.data a' = np.data a.
Proof.
  unfold np.reshape_images.
  destruct (_ =? 0)%nat; [discriminate |].
  destruct (_ =? 0)%nat; [| discriminate].
  intros [= <-]. reflexivity.
Qed.

(** ** One-hot rows *)

Lemma filter_is_one_zeros n : filter is_one (repeat F32.zero n) = [].
Proof. induction n; [reflexivity | exact IHn]. Qed.

Lemma forallb_zeros n :
  forallb (fun v => is_one v || is_zero v) (repeat F32.zero n) = true.
Proof. induction n; [reflexivity | exact IHn]. Qed.

Lemma one_hot_assign (k j : nat) :
  (j < k)%nat -> one_hot (list_assign (repeat F32.zero k) j F32.one) = true.
Proof.
  unfold one_hot. revert j. induction k as [| k IH]; intros j Hj; [lia |].
  destruct j as [| j]; cbn [repeat list_assign filter forallb].
  - change (is_one F32.one) with true. cbn [length orb andb].
    now rewrite filter_is_one_zeros, forallb_zeros.
  - change (is_one F32.zero) with false. change (is_zero F32.zero) with true.
    cbn [orb andb]. apply IH. lia.
Qed.

Lemma list_assign_length {A} (l : list A) j v :
  length (list_assign l j v) = length l.
Proof.
  revert j. induction l as [| x l IH]; intros [| j]; cbn; auto.
Qed.

Lemma chunks_concat {A} (k : nat) (rs : list (list A)) :
  Forall (fun r => length r = k) rs ->
  np.chunks k (length rs) (concat rs) = rs.
Proof.
  induction 1 as [| r rs Hr _ IH]; [reflexivity |].
  cbn [length concat np.chunks].
  rewrite firstn_app, skipn_app, Hr, Nat.sub_diag, <- Hr.
  rewrite firstn_all, skipn_all. cbn [firstn skipn].
  rewrite app_nil_r. cbn [app]. rewrite Hr in *. now rewrite IH.
Qed.

Lemma prod_shape_app (l : list nat) (d : nat) :
  np.prod_shape (l ++ [d]) = (np.prod_shape l * d)%nat.
Proof.
  induction l as [| x l IH]; cbn; [lia |].
  unfold np.prod_shape in IH. rewrite IH. lia.
Qed.

Lemma fold_left_max_ge (l : list Z) (x : Z) :
  x <= fold_left Z.max l x /\ Forall (fun v => v <= fold_left Z.max l x) l.
Proof.
  revert x. induction l as [| y l IH]; intros x; cbn [fold_left].
  - split; [lia | constructor].
  - destruct (IH (Z.max x y)) as [H1 H2]. split; [lia |].
    constructor; [lia | exact H2].
Qed.

Lemma fold_left_max_In (l : list Z) (x : Z) :
  fold_left Z.max l x = x \/ In (fold_left Z.max l x) l.
Proof.
  revert x. induction l as [| y l IH]; intros x; cbn [fold_left]; [now left |].
  destruct (IH (Z.max x y)) as [H | H].
  - rewrite H. destruct (Z.max_spec x y) as [[_ E] | [_ E]]; rewrite E; cbn; auto.
  - right. now right.
Qed.

Lemma max_spec (l : list Z) (m : Z) :
  np.max l = inr m -> In m l /\ Forall (fun v => v <= m) l.
Proof.
  destruct l as [| x l]; [discriminate |]. intros [= <-].
  destruct (fold_left_max_ge l x) as [H1 H2].
  split; [| now constructor].
  destruct (fold_left_max_In l x) as [H | H]; [rewrite H; now left | now right].
Qed.

Lemma uint8_val_nonneg (b : np.uint8) : 0 <= np.uint8_val b.
Proof. unfold np.uint8_val. lia. Qed.

(** ** [to_categorical] makes one-hot rows of width [max + 1] *)

Lemma squeezed_shape_prod (s : list nat) :
  np.prod_shape
    match rev s with
    | 1%nat :: _ :: _ => removelast s
    | _ => s
    end = np.prod_shape s.
Proof.
  destruct (rev s) as [| d r] eqn:Hrev; [reflexivity |].
  destruct d as [| [| d]]; try reflexivity.
  destruct r as [| d' r]; [reflexivity |].
  assert (Hs : s = rev (d' :: r) ++ [1%nat]).
  { rewrite <- (rev_involutive s), Hrev. reflexivity. }
  rewrite Hs at 1 2. rewrite removelast_last, prod_shape_app. lia.
Qed.

Lemma to_categorical_spec (y : np.ndarray np.uint8) (c : np.ndarray F32.t) :
  well_formed y ->
  to_categorical y = inr c ->
  exists m,
    np.max (labels y) = inr m /\
    last (np.shape c) 1%nat = Z.to_nat (m + 1) /\
    length (np.rows c) = length (np.data y) /\
    Forall (fun row => one_hot row = true /\ length row = Z.to_nat (m + 1))
           (np.rows c).
Proof.
  intros Hwf. unfold to_categorical. fold (labels y).
  destruct (np.max (labels y)) as [e | m] eqn:Hmax; [discriminate |].
  intros [= <-]. exists m. split; [reflexivity |].
  destruct (max_spec _ _ Hmax) as [_ Hle].
  set (k := Z.to_nat (m + 1)) in *.
  set (cat := map (fun yi => list_assign (repeat F32.zero k) (Z.to_nat yi) F32.one)
                  (labels y)).
  assert (Hrows : Forall (fun row => one_hot row = true /\ length row = k) cat).
  { subst cat. apply Forall_map. rewrite Forall_forall in Hle |- *.
    intros v Hv. specialize (Hle v Hv).
    assert (0 <= v).
    { unfold labels in Hv. apply in_map_iff in Hv as [b [<- _]].
      apply uint8_val_nonneg. }
    split.
    - apply one_hot_assign. subst k. lia.
    - now rewrite list_assign_length, repeat_length. }
  assert (Hlen : Forall (fun row => length row = k) cat).
  { eapply Forall_impl; [| exact Hrows]. now intros r [_ H]. }
  unfold np.rows. cbn [np.shape np.data].
  rewrite last_last, removelast_last, squeezed_shape_prod.
  fold (np.size y). rewrite <- Hwf.
  assert (Hn : length (np.data y) = length cat).
  { subst cat. unfold labels. now rewrite !length_map. }
  rewrite Hn, chunks_concat by exact Hlen.
  repeat split; auto.
Qed.

(** ** [np.unique] counts the distinct labels *)

Lemma insert_unique_In (v x : Z) (l : list Z) :
  In x (np.insert_unique v l) <-> x = v \/ In x l.
Proof.
  induction l as [| y l IH]; cbn [np.insert_unique].
  - cbn. intuition.
  - destruct (v <? y) eqn:Hlt; [cbn; intuition |].
    destruct (v =? y) eqn:Heq.
    + apply Z.eqb_eq in Heq. subst. cbn. intuition.
    + cbn [In]. rewrite IH. intuition.
Qed.

Lemma unique_values_In (x : Z) (l : list Z) :
  In x (np.unique_values l) <-> In x l.
Proof.
  induction l as [| y l IH]; [reflexivity |].
  cbn [np.unique_values fold_right]. fold (np.unique_values l).
  rewrite insert_unique_In, IH. cbn. intuition.
Qed.

Lemma insert_unique_increasing (v : Z) (l : list Z) :
  StronglySorted Z.lt l -> StronglySorted Z.lt (np.insert_unique v l).
Proof.
  induction 1 as [| y l Hs IH Hall]; cbn [np.insert_unique].
  - repeat constructor.
  - destruct (v <? y) eqn:Hlt.
    + apply Z.ltb_lt in Hlt. constructor; [now constructor |].
      constructor; [exact Hlt |].
      eapply Forall_impl; [| exact Hall]. cbn. intros; lia.
    + destruct (v =? y) eqn:Heq; [now constructor |].
      apply Z.ltb_ge in Hlt. apply Z.eqb_neq in Heq.
      constructor; [exact IH |].
      rewrite Forall_forall in Hall |- *. intros x Hx.
      apply insert_unique_In in Hx as [-> | Hx]; [lia | auto].
Qed.

Lemma unique_values_increasing (l : list Z) :
  StronglySorted Z.lt (np.unique_values l).
Proof.
  induction l as [| y l IH]; [constructor |].
  now apply insert_unique_increasing.
Qed.

Lemma increasing_NoDup (l : list Z) :
  StronglySorted Z.lt l -> NoDup l.
Proof.
  induction 1 as [| y l _ IH Hall]; constructor; [| exact IH].
  intros Hin. rewrite Forall_forall in Hall. specialize (Hall y Hin). lia.
Qed.

(** A duplicate-free list that covers exactly [0 .. k-1] has [k] elements. *)
Lemma covering_length (l : list Z) (k : nat) :
  NoDup l ->
  (forall v, In v l <-> 0 <= v < Z.of_nat k) ->
  length l = k.
Proof.
  intros Hnodup Hcover.
  rewrite <- (length_seq k 0%nat), <- (length_map Z.of_nat).
  apply Permutation_length, NoDup_Permutation.
  - exact Hnodup.
  - apply Injective_map_NoDup; [| apply seq_NoDup].
    intros a b. apply Nat2Z.inj.
  - intros v. rewrite Hcover, in_map_iff. split.
    + intros Hv. exists (Z.to_nat v). split; [lia |]. apply in_seq. lia.
    + intros [n [<- Hn]]. apply in_seq in Hn. lia.
Qed.

Lemma unique_values_count (l : list Z) (k : nat) :
  (forall v, In v l <-> 0 <= v < Z.of_nat k) ->
  length (np.unique_values l) = k.
Proof.
  intros Hcover. apply covering_length.
  - apply increasing_NoDup, unique_values_increasing.
  - intros v. now rewrite unique_values_In.
Qed.

Lemma distinct_count (l : list Z) (k : nat) :
  (forall v, In v l <-> 0 <= v < Z.of_nat k) ->
  distinct l = k.
Proof.
  intros Hcover. apply covering_length.
  - apply NoDup_nodup.
  - intros v. now rewrite nodup_In.
Qed.

(** The width [to_categorical] gives labels whose largest is [k - 1]. *)
Lemma categorical_width (y : np.ndarray np.uint8) (c : np.ndarray F32.t) (k : nat) :
  well_formed y ->
  to_categorical y = inr c ->
  (forall v, In v (labels y) -> v < Z.of_nat k) ->
  In (Z.of_nat k - 1) (labels y) ->
  last (np.shape c) 1%nat = k.
Proof.
  intros Hwf Hc Hlt Htop.
  destruct (to_categorical_spec y c Hwf Hc) as [m [Hmax [Hlast _]]].
  destruct (max_spec _ _ Hmax) as [Hin Hle].
  rewrite Forall_forall in Hle.
  specialize (Hlt m Hin). specialize (Hle _ Htop).
  rewrite Hlast. lia.
Qed.

Ltac show_trace :=
  cbv beta; unfold ret; cbn [fst snd trace log app].

Ltac each_event := repeat (apply Forall_cons || apply Forall_nil).

(** ** The order of the pipeline *)

Ltac pipeline_leaf G :=
  subst G; cbv beta; unfold linear_pipeline, calls_in, ret;
  cbn [fst snd trace log app phases map phase_of ev_call];
  repeat split;
  lazymatch goal with
  | H : succeeded (inl _) = true |- _ => discriminate H
  | |- (_ <= _)%nat => cbv; lia
  | |- forall _, _ =>
      let H := fresh in
      intros ? H; first [ discriminate H | injection H as <-; reflexivity ]
  | |- _ => reflexivity
  end.

(** ** Exceptions are not handled *)

Section Propagation.

Context {A B : Type}.

Lemma propagating_ret (a : A) : propagating (ret a).
Proof. intros fw w Hw. exact Hw. Qed.

Lemma propagating_invoke (c : call) (sem : framework -> list event -> result A) :
  propagating (invoke c sem).
Proof.
  intros fw w Hw. unfold invoke, unhandled.
  destruct (fw_raises fw (trace w) c) as [e |]; cbn.
  - now exists (trace w), c.
  - destruct (sem fw (trace w)) as [e | a]; cbn.
    + now exists (trace w), c.
    + apply Forall_app. split; [exact Hw | now repeat constructor].
Qed.

Lemma propagating_bind (m : M A) (k : A -> M B) :
  propagating m -> (forall a, propagating (k a)) -> propagating (bind m k).
Proof.
  intros Hm Hk fw w Hw. specialize (Hm fw w Hw). unfold bind.
  destruct (m fw w) as [[e | a] w']; [exact Hm |].
  apply Hk. exact Hm.
Qed.

End Propagation.

Lemma propagating_for_in {S} (l : list Z) (body : Z -> S -> M S) (s : S) :
  (forall i s', propagating (body i s')) -> propagating (for_in l body s).
Proof.
  intros Hbody. revert s.
  induction l as [| i l IH]; intros s; cbn [for_in].
  - apply propagating_ret.
  - apply propagating_bind; [apply Hbody | exact IH].
Qed.

Ltac propagate :=
  repeat first
    [ apply propagating_invoke
    | apply propagating_ret
    | apply propagating_for_in; intros
    | apply propagating_bind; [| intros]
    | match goal with
      | |- propagating (if ?b then _ else _) => destruct b
      | |- propagating (let '(_, _) := ?s in _) => destruct s
      end ].

Lemma preprocess_propagating : propagating preprocess.
Proof. unfold preprocess; unfold_api; propagate. Qed.

Lemma branch_propagating d x : propagating (branch d x).
Proof. unfold branch; unfold_api; propagate. Qed.

Lemma cnn_mnist_propagating : propagating cnn_mnist.
Proof.
  unfold cnn_mnist. apply propagating_bind; [apply preprocess_propagating |].
  intros p. unfold_api. propagate.
Qed.

Lemma y_network_propagating : propagating y_network.
Proof.
  unfold y_network. apply propagating_bind; [apply preprocess_propagating |].
  intros p. unfold_api.
  repeat first
    [ apply branch_propagating
    | apply propagating_invoke
    | apply propagating_ret
    | apply propagating_bind; [| intros] ].
Qed.

(** A handler breaks the property: the exception of the call is swallowed. *)
Example try_except_not_propagating :
  ~ propagating (try_except (api.summary (keras.Sequential [])) (fun _ => ret tt)).
Proof.
  intros H.
  specialize (H (mk_framework (fun _ _ => Some (ValueError "")) sample.tiny
                   (fun _ => (S754_zero false, S754_zero false)))
                (mk_world [] []) (Forall_nil _)).
  cbv in H. inversion H as [| ? ? Hr _]. discriminate Hr.
Qed.

Lemma unhandled_last_raises {A} (o : result A * world) :
  unhandled o ->
  forall tr ev rest e,
    trace (snd o) = tr ++ ev :: rest ->
    ev_raised ev = Some e ->
    rest = [] /\ fst o = inl e.
Proof.
  unfold unhandled. intros Hun tr ev rest e Htr Hev.
  assert (Hnot : forall l, Forall returned l -> ~ In ev l).
  { intros l Hl Hin. rewrite Forall_forall in Hl.
    specialize (Hl ev Hin). unfold returned in Hl. congruence. }
  destruct (fst o) as [e0 | a].
  - destruct Hun as [tr0 [c [Htr0 Hret]]]. rewrite Htr in Htr0.
    destruct rest as [| x rest] using rev_ind.
    + apply app_inj_tail in Htr0 as [_ ->]. cbn in Hev. now injection Hev as ->.
    + clear IHrest. exfalso.
      rewrite app_comm_cons, app_assoc in Htr0.
      apply app_inj_tail in Htr0 as [<- _].
      apply (Hnot _ Hret). apply in_or_app. right. now left.
  - exfalso. apply (Hnot _ Hun). rewrite Htr. apply in_or_app. right. now left.
Qed.

(** ** World invariants *)

Section Invariants.

Context {A B : Type} (I : world -> Prop).

Lemma invariant_ret (a : A) : invariant I (ret a).
Proof. intros fw w Hw. exact Hw. Qed.

Lemma invariant_invoke (c : call) (sem : framework -> list event -> result A) :
  (forall r w, I w -> I (log c r w)) -> invariant I (invoke c sem).
Proof.
  intros Hlog fw w Hw. unfold invoke.
  destruct (fw_raises fw (trace w) c); [now apply Hlog |].
  destruct (sem fw (trace w)); now apply Hlog.
Qed.

Lemma invariant_bind (m : M A) (k : A -> M B) :
  invariant I m -> (forall a, invariant I (k a)) -> invariant I (bind m k).
Proof.
  intros Hm Hk fw w Hw. specialize (Hm fw w Hw). unfold bind.
  destruct (m fw w) as [[e | a] w']; [exact Hm |].
  apply Hk. exact Hm.
Qed.

End Invariants.

Lemma invariant_for_in {S} (I : world -> Prop) (l : list Z)
    (body : Z -> S -> M S) (s : S) :
  (forall i s', invariant I (body i s')) -> invariant I (for_in l body s).
Proof.
  intros Hbody. revert s.
  induction l as [| i l IH]; intros s; cbn [for_in].
  - apply invariant_ret.
  - apply invariant_bind; [apply Hbody | exact IH].
Qed.

Lemma touch_In (f g : string) (fs : list string) :
  In f (touch g fs) <-> f = g \/ In f fs.
Proof.
  unfold touch. destruct (existsb (String.eqb g) fs) eqn:Hex.
  - apply existsb_exists in Hex as [x [Hx Heq]].
    apply String.eqb_eq in Heq. subst x.
    split; [now right | now intros [-> | H]].
  - rewrite in_app_iff. cbn. split.
    + intros [H | [<- | []]]; [now right | now left].
    + intros [-> | H]; [right; now left | now left].
Qed.

Lemma touch_present (g : string) (fs : list string) :
  In g fs -> touch g fs = fs.
Proof.
  intros Hg. unfold touch.
  assert (Hex : existsb (String.eqb g) fs = true).
  { apply existsb_exists. exists g. split; [exact Hg | apply String.eqb_refl]. }
  now rewrite Hex.
Qed.

Lemma touch_framework_only (F : list string) (fs : list string) (g : string) :
  In g framework_files ->
  incl F fs
  /\ (forall f, In f fs -> In f F \/ In f framework_files)
  /\ (incl framework_files F -> fs = F) ->
  incl F (touch g fs)
  /\ (forall f, In f (touch g fs) -> In f F \/ In f framework_files)
  /\ (incl framework_files F -> touch g fs = F).
Proof.
  intros Hg [Hincl [Hnew Hsame]]. split; [| split].
  - intros f Hf. apply touch_In. right. now apply Hincl.
  - intros f Hf. apply touch_In in Hf as [-> | Hf]; [now right | now apply Hnew].
  - intros Hall. rewrite (Hsame Hall). apply touch_present. now apply Hall.
Qed.

Lemma log_framework_only (F : list string) (tr0 : list event) (c : call)
    (r : option exn) (w : world) :
  takes_no_file (mk_event c r) ->
  framework_only F tr0 w -> framework_only F tr0 (log c r w).
Proof.
  unfold framework_only, takes_no_file, log. cbn [ev_call trace files].
  intros Hc [Hincl [Hnew [Hsame [tr [Htr Hall]]]]].
  assert (Hfiles : incl F (files w)
                   /\ (forall f, In f (files w) -> In f F \/ In f framework_files)
                   /\ (incl framework_files F -> files w = F))
    by (repeat split; assumption).
  assert (Htrace : exists tr', trace w ++ [mk_event c r] = tr0 ++ tr'
                               /\ Forall takes_no_file tr').
  { exists (tr ++ [mk_event c r]). split.
    - now rewrite Htr, app_assoc.
    - apply Forall_app. split; [exact Hall |]. repeat constructor.
      unfold takes_no_file. cbn [ev_call]. exact Hc. }
  destruct (output_of c) as [| | f | f]; [| | contradiction |].
  - destruct Hfiles as [H1 [H2 H3]]. repeat split; assumption.
  - destruct Hfiles as [H1 [H2 H3]]. repeat split; assumption.
  - subst f. destruct r as [e |].
    + destruct Hfiles as [H1 [H2 H3]]. repeat split; assumption.
    + destruct (touch_framework_only F (files w) mnist_cache) as [H1 [H2 H3]];
        [right; now left | exact Hfiles |].
      repeat split; assumption.
Qed.

Ltac keep_framework_only :=
  repeat first
    [ apply invariant_invoke; intros; apply log_framework_only;
      [first [exact I | exact eq_refl] | assumption]
    | apply invariant_ret
    | apply invariant_for_in; intros
    | apply invariant_bind; [| intros]
    | match goal with
      | |- invariant _ (if ?b then _ else _) => destruct b
      | |- invariant _ (let '(_, _) := ?s in _) => destruct s
      end ].

Lemma cnn_mnist_framework_only F tr0 : invariant (framework_only F tr0) cnn_mnist.
Proof. unfold cnn_mnist, preprocess; unfold_api; keep_framework_only. Qed.

Lemma y_network_framework_only F tr0 : invariant (framework_only F tr0) y_network.
Proof. unfold y_network, preprocess, branch; unfold_api; keep_framework_only. Qed.

Lemma takes_no_file_not_plot (ev : event) :
  takes_no_file ev -> is_plot_model (ev_call ev) = false.
Proof.
  unfold takes_no_file. destruct (ev_call ev); cbn; try reflexivity. contradiction.
Qed.

Lemma import_framework_only (w : world) :
  framework_only (files w) (trace w) (import_keras w).
Proof.
  unfold framework_only, import_keras. cbn [files trace].
  destruct (touch_framework_only (files w) (files w) keras_config) as [H1 [H2 H3]].
  - now left.
  - split; [apply incl_refl |]. split; [intros f Hf; now left | reflexivity].
  - split; [exact H1 |]. split; [exact H2 |]. split; [exact H3 |].
    exists []. split; [now rewrite app_nil_r | constructor].
Qed.

(** The commented-out line, had it run, would have written its file. *)
Example plot_model_writes :
  files (snd (api.plot_model (keras.Sequential []) "cnn-mnist.png" true
                sample.quiet (mk_world [] [])))
  = ["cnn-mnist.png"].
Proof. reflexivity. Qed.

(** * The notebooks' properties *)

(** A step that keeps what [evaluate] returned when its two numbers are
    taken apart. *)
Ltac step_score leaf :=
  lazymatch goal with
  | |- _ ((let '(_, _) := ?s in _) _ _) =>
      let H := fresh "Hscore" in
      destruct s eqn:H
  | |- _ => step leaf
  end.

Ltac steps_score leaf :=
  repeat (step_score leaf;
          cbn [num_labels image_size x_train y_train x_test y_test]).

Ltac data_leaf G :=
  subst G; cbv beta; unfold ret, pipeline_on_data;
  cbn [fst snd trace log app];
  split;
  [ each_event; unfold works_on_loaded_data; cbn [ev_call];
    try exact I;
    unfold on_training_data, on_test_data; cbn [arrays_of];
    repeat split; try discriminate; try assumption;
    each_event;
    (rewrite normalized_data; f_equal; eapply reshape_images_data; eassumption)
  | unfold accuracies;
    cbn [printed flat_map ev_call ev_raised accuracies_from app map];
    repeat match goal with
      | H : fw_score _ _ = (_, ?a) |- _ =>
          apply (f_equal snd) in H; cbn [snd] in H; subst a
      end;
    reflexivity ].

(** C2: each notebook is a linear pipeline.  The stages of any run are an
    initial part of load, build, compile, fit, evaluate, print, in that
    order; compile, fit and evaluate are never called twice; a run that
    ends without an exception called each of them exactly once and went
    through all six stages, printing last.  In any run, [fit] is given the
    loader's training images, normalized, with its training labels made
    categorical, [evaluate] (and the validation data of [fit], where there
    is some) the test images and labels, and what is printed is a hundred
    times the accuracy -- the second number -- that [evaluate] returned. *)
Theorem pipeline_order (fw : framework) :
  (linear_pipeline (run cnn_mnist fw) /\ pipeline_on_data fw (run cnn_mnist fw))
  /\ (linear_pipeline (run y_network fw) /\ pipeline_on_data fw (run y_network fw)).
Proof.
  split; split.
  - as_outcome G. unfold_notebook.
    steps ltac:(pipeline_leaf G). pipeline_leaf G.
  - as_outcome G. unfold_notebook.
    steps_score ltac:(data_leaf G). data_leaf G.
  - as_outcome G. unfold_notebook.
    steps ltac:(pipeline_leaf G). pipeline_leaf G.
  - as_outcome G. unfold_notebook.
    steps_score ltac:(data_leaf G). data_leaf G.
Qed.

(** Both notebooks run to the end under the sample framework. *)
Example sample_runs_succeed :
  succeeded (fst (run cnn_mnist sample.quiet)) = true
  /\ succeeded (fst (run y_network sample.quiet)) = true.
Proof. split; reflexivity. Qed.

(** C6: no exception is caught.  In any run of either notebook, a call
    that raises is the last call made, and what it raised is the outcome of
    the run; and a run that ends in an exception ends with the call that
    raised it. *)
Theorem exceptions_propagate (fw : framework) (nb : M env) :
  In nb notebooks ->
  (forall tr ev rest e,
      trace (snd (run nb fw)) = tr ++ ev :: rest ->
      ev_raised ev = Some e ->
      rest = [] /\ fst (run nb fw) = inl e)
  /\ (forall e, fst (run nb fw) = inl e ->
                exists tr c, trace (snd (run nb fw)) = tr ++ [mk_event c (Some e)]).
Proof.
  intros Hnb.
  assert (Hun : unhandled (run nb fw)).
  { destruct Hnb as [<- | [<- | []]].
    - apply cnn_mnist_propagating. constructor.
    - apply y_network_propagating. constructor. }
  split.
  - now apply unhandled_last_raises.
  - intros e He. unfold unhandled in Hun. rewrite He in Hun.
    destruct Hun as [tr [c [Htr _]]]. now exists tr, c.
Qed.

Lemma exceptions_propagate_witness :
  In y_network notebooks
  /\ exists tr c e,
       trace (snd (run y_network sample.fit_fails)) = tr ++ [mk_event c (Some e)]
       /\ phase_of c = Fit
       /\ fst (run y_network sample.fit_fails) = inl e.
Proof.
  assert (Hnb : In y_network notebooks) by (right; left; reflexivity).
  split; [exact Hnb |].
  destruct (exceptions_propagate sample.fit_fails y_network Hnb) as [Hlast _].
  eexists _, _, _.
  split; [reflexivity |]. split; [reflexivity |].
  eapply (Hlast _ _ []); reflexivity.
Defined.

(** C7, as stated, fails: a session of either notebook that starts with no
    files ends with two, Keras' configuration file and the loader's cache
    of the dataset. *)
Lemma fresh_session_creates_files :
  files (snd (session cnn_mnist sample.quiet (mk_world [] [])))
  = [keras_config; mnist_cache]
  /\ files (snd (session y_network sample.quiet (mk_world [] [])))
     = [keras_config; mnist_cache]
  /\ ~ leaves_files_alone cnn_mnist
  /\ ~ leaves_files_alone y_network.
Proof.
  split; [vm_compute; reflexivity |]. split; [vm_compute; reflexivity |].
  split; intros H; specialize (H sample.quiet (mk_world [] []));
    vm_compute in H; discriminate H.
Qed.

(** C7, amended: neither notebook is given a file to write.  From any
    world, a session of either notebook removes no file and creates none
    but the framework's own two, the configuration file Keras leaves when
    imported and the cache the loader keeps of the dataset; when those
    exist already it leaves the files as they were; and every call it makes
    is silent, prints to the standard output or is the loader keeping its
    cache: none is given a file to write, none is [plot_model]. *)
Theorem only_framework_files_written :
  writes_framework_files_only cnn_mnist /\ writes_framework_files_only y_network.
Proof.
  assert (Hend : forall m : M env,
             (forall F tr0, invariant (framework_only F tr0) m) ->
             writes_framework_files_only m).
  { intros m Hm fw w. unfold session.
    destruct (Hm (files w) (trace w) fw (import_keras w) (import_framework_only w))
      as [H1 [H2 [H3 [tr [Htr Hall]]]]].
    split; [exact H1 |]. split; [exact H2 |]. split; [exact H3 |].
    exists tr. split; [exact Htr |].
    eapply Forall_impl; [| exact Hall].
    intros ev Hev. split; [exact Hev | now apply takes_no_file_not_plot]. }
  split; apply Hend.
  - exact cnn_mnist_framework_only.
  - exact y_network_framework_only.
Qed.

Ltac sgd_leaf G :=
  subst G; show_trace; unfold sgd_compiled; cbv zeta; cbn [fst snd];
  split; [| split; [| split]];
  [ each_event;
    cbn [configured_optimizer configured_loss ev_call];
    (split; intros ? [=]; subst; reflexivity)
  | cbn [compiled_models flat_map ev_call app]; each_event;
    eexists _, _; first [ left; reflexivity | right; reflexivity ]
  | cbn [compiled_models used_models flat_map ev_call app In];
    (let m := fresh "m" in
     let Hm := fresh "Hm" in
     intros m Hm;
     repeat (destruct Hm as [<- | Hm]; [reflexivity |]);
     contradiction)
  | (let Hs := fresh "Hs" in
     intros Hs;
     first [ discriminate Hs
           | split; [reflexivity |]; eexists; repeat split; reflexivity ]) ].

(** C8: both models are compiled with the ['sgd'] optimizer and the
    ['categorical_crossentropy'] loss, and with nothing else.  In any run
    of either notebook every configured optimizer is ['sgd'], so none is
    Adam, whatever the comments next to the calls say; what is compiled is
    the model the notebook built, with all its layers; whatever is fitted
    or evaluated is that compiled model; and a run that ends without an
    exception compiled once, and fitted and evaluated what it compiled. *)
Theorem compiled_with_sgd (fw : framework) :
  sgd_compiled (run cnn_mnist fw) /\ sgd_compiled (run y_network fw).
Proof.
  split; as_outcome G; unfold_notebook; steps ltac:(sgd_leaf G); sgd_leaf G.
Qed.

(** ** Normalized inputs *)

Lemma normalized_unit (a : np.ndarray np.uint8) :
  Forall (fun v => in_unit_interval v = true)
         (np.data (np.true_divide (np.astype_float32 a) 255)).
Proof.
  rewrite normalized_data. apply Forall_map, Forall_forall.
  intros b _. apply normalize_in_unit_interval.
Qed.

Lemma normalized_train fw s a :
  np.reshape_images (ds_x_train (fw_dataset fw)) s = inr a ->
  normalized_images fw (np.true_divide (np.astype_float32 a) 255).
Proof.
  intros H. left. rewrite normalized_data. f_equal.
  now apply reshape_images_data in H.
Qed.

Lemma normalized_test fw s a :
  np.reshape_images (ds_x_test (fw_dataset fw)) s = inr a ->
  normalized_images fw (np.true_divide (np.astype_float32 a) 255).
Proof.
  intros H. right. rewrite normalized_data. f_equal.
  now apply reshape_images_data in H.
Qed.

Ltac normalized_leaf G :=
  subst G; show_trace; unfold normalized_inputs; cbn [fst snd];
  each_event;
  cbn [images_of inputs_of ev_call flat_map arrays_of app];
  each_event;
  (split; [eauto using normalized_train, normalized_test | apply normalized_unit]).

(** C9: the images are normalized.  Every image array that a run of either
    notebook passes to [fit] (validation data included) or to [evaluate] is
    the loader's training or test images with each 8-bit pixel cast to
    float32 and divided by 255, unchanged since; and each of its elements
    lies in the closed interval [0, 1]. *)
Theorem inputs_in_unit_interval (fw : framework) :
  normalized_inputs fw (run cnn_mnist fw) /\ normalized_inputs fw (run y_network fw).
Proof.
  split; as_outcome G; unfold_notebook;
    steps ltac:(normalized_leaf G); normalized_leaf G.
Qed.

(** ** What the notebooks build *)

Ltac outcome_leaf G :=
  subst G; cbv beta; unfold ret;
  let e := fresh "e" in
  let w := fresh "w" in
  let H := fresh "H" in
  intros e w H;
  first
    [ discriminate H
    | injection H as <- <-;
      eexists; unfold prepared_from;
      cbn [env_model env_num_labels env_x_train env_x_test env_y_train env_y_test];
      repeat split;
      first [ reflexivity
            | assumption
            | rewrite normalized_data; f_equal;
              eapply reshape_images_data; eassumption ] ].

Lemma cnn_mnist_builds fw e w :
  run cnn_mnist fw = (inr e, w) -> cnn_mnist_outcome fw e w.
Proof.
  revert e w. as_outcome G. unfold_notebook.
  steps ltac:(outcome_leaf G). outcome_leaf G.
Qed.

Lemma y_network_builds fw e w :
  run y_network fw = (inr e, w) -> y_network_outcome fw e w.
Proof.
  revert e w. as_outcome G. unfold_notebook.
  steps ltac:(outcome_leaf G). outcome_leaf G.
Qed.

(** C3: two models, a plain stack and a Y-shaped network, each built,
    trained and evaluated on MNIST.  A run of the Sequential notebook that
    ends without an exception has loaded MNIST and built one model, a
    Sequential of three Conv2D with two poolings, Flatten, Dense(num_labels)
    and a softmax, trained and evaluated on a single input array; a run of
    the Y-Network notebook has built one model of two distinct inputs, a
    branch on each, the branches concatenated, flattened and given a
    softmax Dense head, trained and evaluated on two input arrays. *)
Theorem two_models_built (fw : framework) :
  length notebooks = 2%nat
  /\ (forall e w,
        run cnn_mnist fw = (inr e, w) ->
        cnn_mnist_outcome fw e w
        /\ exists ls,
             env_model e = keras.Sequential ls
             /\ length (filter keras.is_Conv2D ls) = 3%nat
             /\ length (filter keras.is_MaxPooling2D ls) = 2%nat
             /\ classifier ls = [keras.Flatten;
                                 keras.Dense (env_num_labels e) None;
                                 keras.Activation "softmax"])
  /\ (forall e w,
        run y_network fw = (inr e, w) ->
        y_network_outcome fw e w
        /\ exists left_inputs right_inputs x y,
             env_model e
             = keras.Model [left_inputs; right_inputs]
                 (keras.Apply (keras.Dense (env_num_labels e) (Some "softmax"))
                    (keras.Apply keras.Flatten (keras.concatenate [x; y])))
                 "Y_Network"
             /\ left_inputs <> right_inputs
             /\ keras.source x = left_inputs
             /\ keras.source y = right_inputs).
Proof.
  split; [reflexivity |]. split; intros e w Hrun.
  - pose proof (cnn_mnist_builds fw e w Hrun) as Hout.
    split; [exact Hout |].
    destruct Hout as [s [-> _]].
    eexists. repeat split; reflexivity.
  - pose proof (y_network_builds fw e w Hrun) as Hout.
    split; [exact Hout |].
    destruct Hout as [s [-> _]].
    eexists _, _, _, _. split; [reflexivity |].
    split; [discriminate |]. split; reflexivity.
Qed.

Lemma two_models_built_witness :
  exists e1 w1 e2 w2,
    run cnn_mnist sample.quiet = (inr e1, w1)
    /\ run y_network sample.quiet = (inr e2, w2)
    /\ cnn_mnist_outcome sample.quiet e1 w1
    /\ y_network_outcome sample.quiet e2 w2.
Proof.
  eexists _, _, _, _.
  split; [vm_compute; reflexivity |]. split; [vm_compute; reflexivity |].
  destruct (two_models_built sample.quiet) as [_ [H1 H2]].
  split.
  - exact (proj1 (H1 _ _ eq_refl)).
  - exact (proj1 (H2 _ _ eq_refl)).
Defined.

(** C4: each branch of the Y-Network is Conv-Pool-Conv-Pool-Conv.  In the
    model of a run that ends without an exception there are two branches;
    each is three Conv2D of 64 filters, kernel size 3, ['same'] padding and
    ReLU, with a MaxPooling2D after the first and after the second and
    none after the third. *)
Theorem branch_conv_pool_conv_pool_conv (fw : framework) (e : env) (w : world) :
  run y_network fw = (inr e, w) ->
  exists x y,
    keras.branches (env_model e) = [x; y]
    /\ forall b, In b [x; y] ->
         map keras.is_Conv2D (keras.chain b) = [true; false; true; false; true]
         /\ map keras.is_MaxPooling2D (keras.chain b)
            = [false; true; false; true; false]
         /\ forall l, In l (keras.chain b) -> keras.is_Conv2D l = true ->
              exists d, l = keras.Conv2D 64 3 (Some "same") (Some "relu") d None.
Proof.
  intros Hrun.
  destruct (y_network_builds fw e w Hrun) as [s [-> _]].
  eexists _, _. split; [reflexivity |].
  intros b [<- | [<- | []]]; (split; [reflexivity |]); (split; [reflexivity |]);
    cbn; intros l Hl Hconv;
    repeat (destruct Hl as [<- | Hl]; [try discriminate Hconv; eexists; reflexivity |]);
    contradiction.
Qed.

Lemma branch_conv_pool_conv_pool_conv_witness :
  exists e w x y,
    run y_network sample.quiet = (inr e, w)
    /\ keras.branches (env_model e) = [x; y]
    /\ map keras.is_Conv2D (keras.chain x) = [true; false; true; false; true]
    /\ map keras.is_Conv2D (keras.chain y) = [true; false; true; false; true].
Proof.
  assert (Hrun : {ew | run y_network sample.quiet = (inr (fst ew), snd ew)}).
  { eexists (_, _). vm_compute. reflexivity. }
  destruct Hrun as [[e w] Hrun]. cbn [fst snd] in Hrun.
  destruct (branch_conv_pool_conv_pool_conv sample.quiet e w Hrun)
    as [x [y [Hb Hall]]].
  exists e, w, x, y. split; [exact Hrun |]. split; [exact Hb |].
  split.
  - exact (proj1 (Hall x (or_introl eq_refl))).
  - exact (proj1 (Hall y (or_intror (or_introl eq_refl)))).
Defined.

(** ** Feeding the branches *)

Ltac fed_leaf G :=
  subst G; show_trace; unfold fed_twice; cbn [fst snd];
  each_event; cbn [inputs_of ev_call]; each_event;
  eexists; reflexivity.

(** C10: both branches of the Y-Network get the same data.  In any run,
    the input list of [fit], of its validation data and of [evaluate] is
    one array given twice; in a run that ends without an exception the
    model's two inputs are distinct, each heads its own branch, [fit] got
    the training images twice and [evaluate] the test images twice, and
    the branches differ in the dilation rate (2 on the right, the default
    1 on the left) and in nothing else of their layers' configuration. *)
Theorem both_branches_same_data (fw : framework) :
  fed_twice (run y_network fw)
  /\ forall e w,
       run y_network fw = (inr e, w) ->
       exists left_inputs right_inputs x y outputs,
         env_model e = keras.Model [left_inputs; right_inputs] outputs "Y_Network"
         /\ keras.branches (env_model e) = [x; y]
         /\ keras.source x = left_inputs
         /\ keras.source y = right_inputs
         /\ left_inputs <> right_inputs
         /\ map config_of (keras.chain y)
            = map (with_dilation 2) (map config_of (keras.chain x))
         /\ map config_of (keras.chain x)
            = map (with_dilation 1) (map config_of (keras.chain y))
         /\ trained (trace w)
            = [(env_model e, array_list [env_x_train e; env_x_train e], env_y_train e)]
         /\ evaluated (trace w)
            = [(env_model e, array_list [env_x_test e; env_x_test e], env_y_test e)].
Proof.
  split.
  - as_outcome G. unfold_notebook. steps ltac:(fed_leaf G). fed_leaf G.
  - intros e w Hrun.
    destruct (y_network_builds fw e w Hrun) as [s [Hm [_ [_ [_ [Htr [Hev _]]]]]]].
    rewrite Htr, Hev, Hm.
    eexists _, _, _, _, _. split; [reflexivity |].
    repeat split; try reflexivity. discriminate.
Qed.

Lemma both_branches_same_data_witness :
  exists e w,
    run y_network sample.quiet = (inr e, w)
    /\ trained (trace w)
       = [(env_model e, array_list [env_x_train e; env_x_train e], env_y_train e)].
Proof.
  assert (Hrun : {ew | run y_network sample.quiet = (inr (fst ew), snd ew)}).
  { eexists (_, _). vm_compute. reflexivity. }
  destruct Hrun as [[e w] Hrun]. cbn [fst snd] in Hrun.
  exists e, w. split; [exact Hrun |].
  destruct (both_branches_same_data sample.quiet) as [_ H].
  destruct (H e w Hrun) as [l [r [x [y [o [_ [_ [_ [_ [_ [_ [_ [Ht _]]]]]]]]]]]]].
  exact Ht.
Defined.

(** ** The two notebooks compared *)

(** C1, as stated, fails: under the sample framework both notebooks run to
    the end, and the right branch of the Y-Network does not have the
    configuration of the Sequential stack -- its convolutions are dilated. *)
Lemma right_branch_is_dilated :
  exists e1 w1 e2 w2,
    run cnn_mnist sample.quiet = (inr e1, w1)
    /\ run y_network sample.quiet = (inr e2, w2)
    /\ ~ same_branch_configuration (env_model e1) (env_model e2).
Proof.
  eexists _, _, _, _.
  split; [vm_compute; reflexivity |]. split; [vm_compute; reflexivity |].
  intros H. unfold same_branch_configuration in H. cbn [env_model] in H.
  specialize (H _ (or_intror (or_introl eq_refl))).
  cbv in H. discriminate H.
Qed.

(** C1, amended: in runs that end without an exception, the left branch of
    the Y-Network has, layer by layer, the configuration of the Sequential
    stack before its Flatten; the right branch has that configuration with
    the dilation rate 2 in place of the default 1, which every
    convolution of the stack has; and both models end in a Dense layer of
    [num_labels] units followed by a softmax, a separate Activation layer
    in the Sequential model and the Dense layer's own activation in the
    Y-Network. *)
Theorem branches_match_up_to_dilation (fw : framework)
    (e1 e2 : env) (w1 w2 : world) :
  run cnn_mnist fw = (inr e1, w1) ->
  run y_network fw = (inr e2, w2) ->
  let stack := map config_of (features (sequential_layers (env_model e1))) in
  exists x y inputs merged,
    keras.branches (env_model e2) = [x; y]
    /\ map config_of (keras.chain x) = stack
    /\ map config_of (keras.chain y) = map (with_dilation 2) stack
    /\ map (with_dilation 1) stack = stack
    /\ env_num_labels e1 = env_num_labels e2
    /\ classifier (sequential_layers (env_model e1))
       = [keras.Flatten; keras.Dense (env_num_labels e1) None;
          keras.Activation "softmax"]
    /\ env_model e2
       = keras.Model inputs
           (keras.Apply (keras.Dense (env_num_labels e2) (Some "softmax"))
              (keras.Apply keras.Flatten merged))
           "Y_Network"
    /\ keras.merged merged = [x; y].
Proof.
  intros Hrun1 Hrun2.
  destruct (cnn_mnist_builds fw e1 w1 Hrun1) as [s1 [Hm1 [Hn1 _]]].
  destruct (y_network_builds fw e2 w2 Hrun2) as [s2 [Hm2 [Hn2 _]]].
  rewrite Hm1, Hm2. cbv zeta.
  eexists _, _, _, _. split; [reflexivity |].
  repeat split; try reflexivity. congruence.
Qed.

Lemma branches_match_up_to_dilation_witness :
  exists e1 w1 e2 w2 x y,
    run cnn_mnist sample.quiet = (inr e1, w1)
    /\ run y_network sample.quiet = (inr e2, w2)
    /\ keras.branches (env_model e2) = [x; y]
    /\ map config_of (keras.chain x)
       = map config_of (features (sequential_layers (env_model e1))).
Proof.
  assert (Hrun1 : {ew | run cnn_mnist sample.quiet = (inr (fst ew), snd ew)}).
  { eexists (_, _). vm_compute. reflexivity. }
  assert (Hrun2 : {ew | run y_network sample.quiet = (inr (fst ew), snd ew)}).
  { eexists (_, _). vm_compute. reflexivity. }
  destruct Hrun1 as [[e1 w1] Hrun1]. destruct Hrun2 as [[e2 w2] Hrun2].
  cbn [fst snd] in Hrun1, Hrun2.
  destruct (branches_match_up_to_dilation sample.quiet e1 e2 w1 w2 Hrun1 Hrun2)
    as [x [y [i [m [Hb [Hx _]]]]]].
  exists e1, w1, e2, w2, x, y. repeat split; assumption.
Defined.

(** ** Labels *)

Ltac categorical_leaf G :=
  subst G; show_trace; unfold categorical_passed; cbn [fst snd];
  each_event; cbn [labels_of ev_call]; each_event;
  first [ left; assumption | right; assumption ].

Lemma labels_categorical (fw : framework) (nb : M env) :
  In nb notebooks -> categorical_passed fw (run nb fw).
Proof.
  intros [<- | [<- | []]]; as_outcome G; unfold_notebook;
    steps ltac:(categorical_leaf G); categorical_leaf G.
Qed.

Lemma categorical_one_hot (fw : framework) (y : np.ndarray F32.t) :
  well_formed (ds_y_train (fw_dataset fw)) ->
  well_formed (ds_y_test (fw_dataset fw)) ->
  categorical_labels fw y ->
  Forall (fun row => one_hot row = true /\ length row = last (np.shape y) 1%nat)
         (np.rows y).
Proof.
  intros Htrain Htest [Hy | Hy];
    [ destruct (to_categorical_spec _ _ Htrain Hy) as [m [_ [Hlast [_ Hrows]]]]
    | destruct (to_categorical_spec _ _ Htest Hy) as [m [_ [Hlast [_ Hrows]]]] ];
    now rewrite Hlast.
Qed.

Lemma categorical_digit_width (fw : framework) (y : np.ndarray F32.t) (k : nat) :
  well_formed (ds_y_train (fw_dataset fw)) ->
  well_formed (ds_y_test (fw_dataset fw)) ->
  digit_labels (fw_dataset fw) k ->
  categorical_labels fw y ->
  last (np.shape y) 1%nat = k.
Proof.
  intros Htrain Htest [Hcover [Hlt Htop]] [Hy | Hy].
  - destruct (to_categorical_spec _ _ Htrain Hy) as [m [Hmax _]].
    destruct (max_spec _ _ Hmax) as [Hin _]. apply Hcover in Hin.
    apply (categorical_width _ _ k Htrain Hy).
    + intros v Hv. now apply Hcover in Hv.
    + apply Hcover. lia.
  - now apply (categorical_width _ _ k Htest Hy).
Qed.

(** C5: the labels are one-hot.  With the loader's label arrays
    well-formed, every label array that a run of either notebook passes to
    [fit] (validation data included) or to [evaluate] is [to_categorical]
    of the loader's labels, and each of its rows has exactly one entry
    equal to 1 and all others 0.  For the labels of a digit dataset, as
    MNIST's are, the rows are as wide as the number of distinct training
    labels, which is also the notebook's [num_labels]. *)
Theorem labels_are_one_hot (fw : framework) (nb : M env) :
  In nb notebooks ->
  well_formed (ds_y_train (fw_dataset fw)) ->
  well_formed (ds_y_test (fw_dataset fw)) ->
  one_hot_labels fw (run nb fw)
  /\ forall k,
       digit_labels (fw_dataset fw) k ->
       distinct (labels (ds_y_train (fw_dataset fw))) = k
       /\ labels_width k (run nb fw)
       /\ forall e w, run nb fw = (inr e, w) -> env_num_labels e = k.
Proof.
  intros Hnb Htrain Htest.
  pose proof (labels_categorical fw nb Hnb) as Hcat.
  unfold categorical_passed in Hcat. split.
  - unfold one_hot_labels.
    eapply Forall_impl; [| exact Hcat]. intros ev Hev.
    eapply Forall_impl; [| exact Hev]. intros y Hy.
    split; [exact Hy | now apply (categorical_one_hot fw)].
  - intros k Hk. split; [| split].
    + apply distinct_count. apply Hk.
    + unfold labels_width.
      eapply Forall_impl; [| exact Hcat]. intros ev Hev.
      eapply Forall_impl; [| exact Hev]. intros y Hy.
      now apply (categorical_digit_width fw).
    + intros e w Hrun.
      assert (Hn : env_num_labels e
                   = length (np.unique_values (labels (ds_y_train (fw_dataset fw))))).
      { destruct Hnb as [<- | [<- | []]].
        - now destruct (cnn_mnist_builds fw e w Hrun) as [s [_ [Hn _]]].
        - now destruct (y_network_builds fw e w Hrun) as [s [_ [Hn _]]]. }
      rewrite Hn. apply unique_values_count. apply Hk.
Qed.

Lemma sample_digit_labels : digit_labels sample.tiny 2.
Proof.
  split; [| split].
  - intros v. cbn. split; [intros [<- | [<- | []]]; lia |].
    intros Hv. assert (v = 0 \/ v = 1) as [-> | ->] by lia; auto.
  - intros v. cbn. intros [<- | []]. lia.
  - cbn. now left.
Defined.

Lemma labels_are_one_hot_witness :
  In cnn_mnist notebooks
  /\ well_formed (ds_y_train sample.tiny)
  /\ well_formed (ds_y_test sample.tiny)
  /\ digit_labels sample.tiny 2
  /\ one_hot_labels sample.quiet (run cnn_mnist sample.quiet)
  /\ labels_width 2 (run cnn_mnist sample.quiet).
Proof.
  assert (Hnb : In cnn_mnist notebooks) by (left; reflexivity).
  assert (Htrain : well_formed (ds_y_train (fw_dataset sample.quiet)))
    by reflexivity.
  assert (Htest : well_formed (ds_y_test (fw_dataset sample.quiet)))
    by reflexivity.
  destruct (labels_are_one_hot sample.quiet cnn_mnist Hnb Htrain Htest)
    as [Hone Hk].
  destruct (Hk 2%nat sample_digit_labels) as [_ [Hwidth _]].
  exact (conj Hnb (conj Htrain (conj Htest
           (conj sample_digit_labels (conj Hone Hwidth))))).
Defined.
(** * Further proofs *)

(** ** Runs under a framework that raises nothing *)

Lemma invoke_bind_quiet {A B} (c : call) sem (k : A -> M B) fw w
    (G : result B * world -> Prop) :
  never_raises fw ->
  (forall e, sem fw (trace w) = inl e -> G (inl e, log c (Some e) w)) ->
  (forall a, sem fw (trace w) = inr a -> G (k a fw (log c None w))) ->
  G (bind (invoke c sem) k fw w).
Proof.
  intros Hq Hraise Hreturn. unfold bind, invoke. rewrite Hq.
  destruct (sem fw (trace w)) as [e | a] eqn:Hsem; [now apply Hraise | now apply Hreturn].
Qed.

Lemma to_categorical_raises (y : np.ndarray np.uint8) (e : exn) :
  to_categorical y = inl e ->
  nonempty (np.data y) = false /\ exn_class e = "ValueError".
Proof.
  unfold to_categorical. destruct (np.data y) as [| b l]; cbn.
  - intros [= <-]. split; reflexivity.
  - discriminate.
Qed.

Lemma to_categorical_returns (y : np.ndarray np.uint8) (c : np.ndarray F32.t) :
  to_categorical y = inr c -> nonempty (np.data y) = true.
Proof.
  unfold to_categorical. destruct (np.data y) as [| b l]; cbn;
    [discriminate | reflexivity].
Qed.

Lemma shape_at_raises {A} (a : np.ndarray A) (i : nat) (e : exn) :
  np.shape_at a i = inl e ->
  nth_error (np.shape a) i = None /\ exn_class e = "IndexError".
Proof.
  unfold np.shape_at. destruct (nth_error (np.shape a) i);
    [discriminate | intros [= <-]; split; reflexivity].
Qed.

Lemma shape_at_returns {A} (a : np.ndarray A) (i s : nat) :
  np.shape_at a i = inr s -> nth_error (np.shape a) i = Some s.
Proof.
  unfold np.shape_at. destruct (nth_error (np.shape a) i);
    [now intros [= ->] | discriminate].
Qed.

Lemma reshape_images_raises {A} (a : np.ndarray A) (s : nat) (e : exn) :
  np.reshape_images a s = inl e ->
  ((s * s * 1 =? 0)%nat = true
   \/ (np.size a mod (s * s * 1) =? 0)%nat = false)
  /\ exn_class e = "ValueError".
Proof.
  unfold np.reshape_images.
  destruct (s * s * 1 =? 0)%nat.
  - intros [= <-]. split; [now left | reflexivity].
  - destruct (np.size a mod (s * s * 1) =? 0)%nat; [discriminate |].
    intros [= <-]. split; [now right | reflexivity].
Qed.

Lemma reshape_images_returns {A} (a a' : np.ndarray A) (s : nat) :
  np.reshape_images a s = inr a' ->
  (s * s * 1 =? 0)%nat = false
  /\ (np.size a mod (s * s * 1) =? 0)%nat = true
  /\ a' = np.mk_ndarray [(np.size a / (s * s * 1))%nat; s; s; 1%nat] (np.data a).
Proof.
  unfold np.reshape_images.
  destruct (s * s * 1 =? 0)%nat; [discriminate |].
  destruct (np.size a mod (s * s * 1) =? 0)%nat; [| discriminate].
  intros [= <-]. repeat split.
Qed.

(** What the calls that returned say about the dataset. *)
Ltac read_dataset :=
  repeat match goal with
    | H : to_categorical _ = inr _ |- _ => apply to_categorical_returns in H
    | H : to_categorical _ = inl _ |- _ =>
        apply to_categorical_raises in H; destruct H as [H ?]
    | H : np.shape_at _ _ = inr _ |- _ => apply shape_at_returns in H
    | H : np.shape_at _ _ = inl _ |- _ =>
        apply shape_at_raises in H; destruct H as [H ?]
    | H : np.reshape_images _ _ = inr _ |- _ =>
        apply reshape_images_returns in H; destruct H as [? [H ?]]
    | H : np.reshape_images _ _ = inl _ |- _ =>
        apply reshape_images_raises in H; destruct H as [H ?]
    end.

Ltac quiet_leaf G :=
  subst G; cbv beta; unfold ret, quiet_outcome, runnable;
  cbn [fst snd trace log app phases map phase_of ev_call];
  read_dataset;
  repeat match goal with
    | H : _ \/ _ |- _ => destruct H as [H | H]
    end;
  try congruence;
  repeat match goal with
    | H : _ = true |- _ => rewrite H
    | H : _ = false |- _ => rewrite H
    | H : nth_error _ _ = _ |- _ => rewrite H
    end;
  cbn [andb negb];
  rewrite ?andb_false_r; cbn [andb];
  first
    [ reflexivity
    | eexists; split; [reflexivity |]; split; [auto | repeat constructor] ].

Ltac quiet_step Hq leaf :=
  lazymatch goal with
  | |- _ (bind (invoke _ _) _ _ _) =>
      apply (invoke_bind_quiet _ _ _ _ _ _ Hq);
      [ let e := fresh "e" in
        let He := fresh "Hraised" in
        intros e He; first [ discriminate He | leaf ]
      | let a := fresh "v" in
        let Hv := fresh "Hval" in
        intros a Hv; try (injection Hv as Hv; subst a); cbv beta ]
  | |- _ => step ltac:(idtac)
  end.

Ltac quiet_steps Hq leaf :=
  repeat (quiet_step Hq leaf;
          cbn [num_labels image_size x_train y_train x_test y_test]).

Lemma quiet_runs (fw : framework) (nb : M env) :
  In nb notebooks ->
  never_raises fw ->
  quiet_outcome (fw_dataset fw) (run nb fw).
Proof.
  intros [<- | [<- | []]] Hq.
  - as_outcome G; unfold_notebook.
    quiet_steps Hq ltac:(quiet_leaf G). quiet_leaf G.
  - as_outcome G; unfold_notebook.
    quiet_steps Hq ltac:(quiet_leaf G). quiet_leaf G.
Qed.

(** X1: under a framework that raises nothing, a notebook runs to the end
    exactly when the dataset is runnable: both label arrays have elements,
    the training images have a second axis of a length [s] other than 0,
    and [s * s] divides the sizes of the training and of the test images.
    When it does not run to the end, it ends in a ValueError or an
    IndexError. *)
Theorem quiet_run_succeeds_iff (fw : framework) (nb : M env) :
  In nb notebooks ->
  never_raises fw ->
  (succeeded (fst (run nb fw)) = true <-> runnable (fw_dataset fw) = true)
  /\ forall e, fst (run nb fw) = inl e ->
                exn_class e = "ValueError" \/ exn_class e = "IndexError".
Proof.
  intros Hnb Hq. pose proof (quiet_runs fw nb Hnb Hq) as H.
  unfold quiet_outcome in H.
  destruct (runnable (fw_dataset fw)).
  - split; [tauto |]. intros e He. rewrite He in H. discriminate H.
  - destruct H as [e [He [Hclass _]]]. rewrite He. cbn. split.
    + split; discriminate.
    + now intros e' [= <-].
Qed.

Lemma quiet_run_succeeds_iff_witness :
  In cnn_mnist notebooks
  /\ never_raises sample.quiet
  /\ runnable (fw_dataset sample.quiet) = true
  /\ succeeded (fst (run cnn_mnist sample.quiet)) = true.
Proof.
  assert (Hnb : In cnn_mnist notebooks) by (left; reflexivity).
  assert (Hq : never_raises sample.quiet) by (intros tr c; reflexivity).
  split; [exact Hnb |]. split; [exact Hq |]. split; [reflexivity |].
  apply (proj2 (proj1 (quiet_run_succeeds_iff sample.quiet cnn_mnist Hnb Hq))).
  reflexivity.
Defined.

Ltac unrunnable_leaf G :=
  subst G; cbv beta; unfold ret, stops_while_loading, runnable;
  cbn [fst snd trace log app phases map phase_of ev_call];
  read_dataset;
  repeat match goal with
    | H : _ = true |- _ => rewrite H
    | H : _ = false |- _ => rewrite H
    | H : nth_error _ _ = _ |- _ => rewrite H
    end;
  cbn [andb negb];
  let Hno := fresh "Hno" in
  intros Hno;
  first
    [ discriminate Hno
    | solve [ eexists; split; [reflexivity | repeat constructor] ] ].

(** X2: a dataset that is not runnable never reaches the model.  Whatever
    the framework does, when the dataset is not runnable the notebook ends
    in an exception while it prepares the data: no layer, tensor or model
    is constructed, and nothing is compiled, trained, evaluated or
    printed. *)
Theorem unrunnable_dataset_never_builds (fw : framework) (nb : M env) :
  In nb notebooks ->
  runnable (fw_dataset fw) = false ->
  stops_while_loading (run nb fw).
Proof.
  intros [<- | [<- | []]].
  - as_outcome G. unfold_notebook.
    steps ltac:(unrunnable_leaf G). unrunnable_leaf G.
  - as_outcome G. unfold_notebook.
    steps ltac:(unrunnable_leaf G). unrunnable_leaf G.
Qed.

Lemma unrunnable_dataset_never_builds_witness :
  In y_network notebooks
  /\ runnable (fw_dataset edge.unlabelled) = false
  /\ stops_while_loading (run y_network edge.unlabelled).
Proof.
  assert (Hnb : In y_network notebooks) by (right; left; reflexivity).
  assert (Hr : runnable (fw_dataset edge.unlabelled) = false) by reflexivity.
  split; [exact Hnb |]. split; [exact Hr |].
  exact (unrunnable_dataset_never_builds edge.unlabelled y_network Hnb Hr).
Defined.

(** ** Shapes *)

Ltac shapes_leaf G :=
  subst G; cbv beta; unfold ret;
  let e := fresh "e" in
  let w := fresh "w" in
  let H := fresh "H" in
  intros e w H;
  first
    [ discriminate H
    | injection H as <- <-;
      read_dataset; subst;
      match goal with
      | Hs : nth_error _ 1 = Some ?s |- _ => exists s
      end;
      cbn [env_model env_num_labels env_x_train env_x_test
           np.shape np.true_divide np.astype_float32];
      repeat split;
      first [ assumption
            | reflexivity
            | (apply Nat.eqb_neq; assumption)
            | (left; reflexivity)
            | (right; reflexivity) ] ].

Lemma shapes_prepared (fw : framework) (nb : M env) (e : env) (w : world) :
  In nb notebooks ->
  run nb fw = (inr e, w) -> prepared_shapes fw e.
Proof.
  intros [<- | [<- | []]]; revert e w.
  - as_outcome G. unfold_notebook. steps ltac:(shapes_leaf G). shapes_leaf G.
  - as_outcome G. unfold_notebook. steps ltac:(shapes_leaf G). shapes_leaf G.
Qed.

(** X3: the image side is read from the second axis of the training images
    alone.  In a run that ends without an exception, with [s] the length of
    that axis, the training and the test images are each regrouped into
    [size / (s * s)] images of shape [(s, s, 1)], whatever their third axis
    and whatever the test images' own shape, and the model is built for
    inputs of shape [(s, s, 1)]. *)
Theorem image_side_from_second_axis (fw : framework) (nb : M env)
    (e : env) (w : world) :
  In nb notebooks ->
  run nb fw = (inr e, w) ->
  exists s,
    nth_error (np.shape (ds_x_train (fw_dataset fw))) 1 = Some s
    /\ np.shape (env_x_train e)
       = [(np.size (ds_x_train (fw_dataset fw)) / (s * s * 1))%nat; s; s; 1%nat]
    /\ np.shape (env_x_test e)
       = [(np.size (ds_x_test (fw_dataset fw)) / (s * s * 1))%nat; s; s; 1%nat]
    /\ (env_model e = plain_stack s (env_num_labels e)
        \/ env_model e = y_shaped s (env_num_labels e)).
Proof.
  intros Hnb Hrun.
  destruct (shapes_prepared fw nb e w Hnb Hrun) as [s [H1 [_ [H2 [H3 H4]]]]].
  now exists s.
Qed.

(** One image of 4 by 8 pixels is passed on as two images of 4 by 4. *)
Lemma image_side_from_second_axis_witness :
  exists e w,
    run cnn_mnist edge.oblong = (inr e, w)
    /\ np.shape (ds_x_train (fw_dataset edge.oblong)) = [1%nat; 4%nat; 8%nat]
    /\ np.shape (env_x_train e) = [2%nat; 4%nat; 4%nat; 1%nat]
    /\ np.shape (env_x_test e) = [1%nat; 4%nat; 4%nat; 1%nat].
Proof.
  assert (Hrun : {ew | run cnn_mnist edge.oblong = (inr (fst ew), snd ew)}).
  { eexists (_, _). vm_compute. reflexivity. }
  destruct Hrun as [[e w] Hrun]. cbn [fst snd] in Hrun.
  exists e, w. split; [exact Hrun |]. split; [reflexivity |].
  destruct (image_side_from_second_axis edge.oblong cnn_mnist e w
              (or_introl eq_refl) Hrun) as [s [Hs [Htrain [Htest _]]]].
  injection Hs as <-. split; [exact Htrain | exact Htest].
Defined.

(** X4: square images keep their number.  When the loader's training
    images have shape [(n, s, s)] and its test images [(m, s, s)], a run
    that ends without an exception passes on arrays of shape
    [(n, s, s, 1)] and [(m, s, s, 1)]. *)
Theorem square_images_keep_count (fw : framework) (nb : M env)
    (e : env) (w : world) (n m s : nat) :
  In nb notebooks ->
  run nb fw = (inr e, w) ->
  np.shape (ds_x_train (fw_dataset fw)) = [n; s; s] ->
  np.shape (ds_x_test (fw_dataset fw)) = [m; s; s] ->
  np.shape (env_x_train e) = [n; s; s; 1%nat]
  /\ np.shape (env_x_test e) = [m; s; s; 1%nat].
Proof.
  intros Hnb Hrun Htrain Htest.
  destruct (shapes_prepared fw nb e w Hnb Hrun) as [s' [H1 [Hs [H2 [H3 _]]]]].
  rewrite Htrain in H1. injection H1 as <-.
  rewrite H2, H3. unfold np.size. rewrite Htrain, Htest.
  cbn [np.prod_shape fold_right].
  replace (n * (s * (s * 1)))%nat with (n * (s * s * 1))%nat by lia.
  replace (m * (s * (s * 1)))%nat with (m * (s * s * 1))%nat by lia.
  now rewrite !Nat.div_mul by exact Hs.
Qed.

Lemma square_images_keep_count_witness :
  exists e w,
    run y_network sample.quiet = (inr e, w)
    /\ np.shape (env_x_train e) = [2%nat; 4%nat; 4%nat; 1%nat]
    /\ np.shape (env_x_test e) = [1%nat; 4%nat; 4%nat; 1%nat].
Proof.
  assert (Hrun : {ew | run y_network sample.quiet = (inr (fst ew), snd ew)}).
  { eexists (_, _). vm_compute. reflexivity. }
  destruct Hrun as [[e w] Hrun]. cbn [fst snd] in Hrun.
  exists e, w. split; [exact Hrun |].
  exact (square_images_keep_count sample.quiet y_network e w 2 1 4
           (or_intror (or_introl eq_refl)) Hrun eq_refl eq_refl).
Defined.

(** ** Reading labels back *)

Lemma find_one_assign (k j : nat) :
  (j < k)%nat -> find_one (list_assign (repeat F32.zero k) j F32.one) = Some j.
Proof.
  revert j. induction k as [| k IH]; intros j Hj; [lia |].
  destruct j as [| j]; cbn [repeat list_assign find_one].
  - reflexivity.
  - change (is_one F32.zero) with false. cbn iota.
    rewrite IH by lia. reflexivity.
Qed.

Lemma to_categorical_rows (y : np.ndarray np.uint8) (c : np.ndarray F32.t) :
  well_formed y ->
  to_categorical y = inr c ->
  exists m,
    np.max (labels y) = inr m
    /\ np.rows c
       = map (fun yi => list_assign (repeat F32.zero (Z.to_nat (m + 1)))
                          (Z.to_nat yi) F32.one)
             (labels y).
Proof.
  intros Hwf. unfold to_categorical. fold (labels y).
  destruct (np.max (labels y)) as [e | m] eqn:Hmax; [discriminate |].
  intros [= <-]. exists m. split; [reflexivity |].
  set (k := Z.to_nat (m + 1)).
  set (cat := map (fun yi => list_assign (repeat F32.zero k) (Z.to_nat yi) F32.one)
                  (labels y)).
  assert (Hlen : Forall (fun row => length row = k) cat).
  { subst cat. apply Forall_map, Forall_forall. intros v _.
    now rewrite list_assign_length, repeat_length. }
  unfold np.rows. cbn [np.shape np.data].
  rewrite last_last, removelast_last, squeezed_shape_prod.
  fold (np.size y). rewrite <- Hwf.
  assert (Hn : length (np.data y) = length cat).
  { subst cat. unfold labels. now rewrite !length_map. }
  rewrite Hn. now apply chunks_concat.
Qed.

Lemma decode_to_categorical (y : np.ndarray np.uint8) (c : np.ndarray F32.t) :
  well_formed y ->
  to_categorical y = inr c ->
  decode c = classes y.
Proof.
  intros Hwf Hc.
  destruct (to_categorical_rows y c Hwf Hc) as [m [Hmax Hrows]].
  destruct (max_spec _ _ Hmax) as [_ Hle]. rewrite Forall_forall in Hle.
  unfold decode, classes. rewrite Hrows, map_map.
  apply map_ext_in. intros v Hv.
  apply find_one_assign.
  assert (0 <= v).
  { unfold labels in Hv. apply in_map_iff in Hv as [b [<- _]].
    apply uint8_val_nonneg. }
  specialize (Hle v Hv). lia.
Qed.

Lemma run_prepared_from (fw : framework) (nb : M env) (e : env) (w : world) :
  In nb notebooks -> run nb fw = (inr e, w) -> prepared_from fw e.
Proof.
  intros [<- | [<- | []]] Hrun.
  - destruct (cnn_mnist_builds fw e w Hrun) as [s H]. apply H.
  - destruct (y_network_builds fw e w Hrun) as [s H]. apply H.
Qed.

(** X5: the labels can be read back.  With the loader's label arrays
    well-formed, in a run that ends without an exception the position of
    the 1 in each row of the training and test labels is the class the
    loader gave, row by row and in the same order. *)
Theorem labels_decode (fw : framework) (nb : M env) (e : env) (w : world) :
  In nb notebooks ->
  well_formed (ds_y_train (fw_dataset fw)) ->
  well_formed (ds_y_test (fw_dataset fw)) ->
  run nb fw = (inr e, w) ->
  decode (env_y_train e) = classes (ds_y_train (fw_dataset fw))
  /\ decode (env_y_test e) = classes (ds_y_test (fw_dataset fw)).
Proof.
  intros Hnb Htrain Htest Hrun.
  destruct (run_prepared_from fw nb e w Hnb Hrun) as [_ [_ [H1 H2]]].
  split; now apply decode_to_categorical.
Qed.

Lemma labels_decode_witness :
  exists e w,
    run cnn_mnist sample.quiet = (inr e, w)
    /\ decode (env_y_train e) = [Some 0%nat; Some 1%nat]
    /\ decode (env_y_test e) = [Some 1%nat].
Proof.
  assert (Hrun : {ew | run cnn_mnist sample.quiet = (inr (fst ew), snd ew)}).
  { eexists (_, _). vm_compute. reflexivity. }
  destruct Hrun as [[e w] Hrun]. cbn [fst snd] in Hrun.
  exists e, w. split; [exact Hrun |].
  exact (labels_decode sample.quiet cnn_mnist e w (or_introl eq_refl)
           eq_refl eq_refl Hrun).
Defined.

(** ** Validation and evaluation data *)

Ltac validation_leaf G :=
  subst G; cbv beta; unfold ret, validated_on_evaluation_data;
  cbn [fst snd trace log app flat_map validation_of evaluation_of ev_call];
  let d := fresh "d" in
  let Hd := fresh "Hd" in
  intros d Hd; cbn [In] in Hd;
  first [ contradiction | destruct Hd as [<- | []]; reflexivity ].

Ltac no_validation_leaf G :=
  subst G; show_trace;
  cbn [flat_map validation_of ev_call app]; reflexivity.

(** X6: the Y-Network is validated on its test data.  In any run of the
    Y-Network notebook, the images and labels given to [evaluate] are the
    very pair given to [fit] as validation data; the Sequential notebook
    gives [fit] no validation data at all. *)
Theorem validation_is_test_data (fw : framework) :
  validated_on_evaluation_data (run y_network fw)
  /\ flat_map validation_of (trace (snd (run cnn_mnist fw))) = [].
Proof.
  split.
  - as_outcome G. unfold_notebook.
    steps ltac:(validation_leaf G). validation_leaf G.
  - as_outcome G. unfold_notebook.
    steps ltac:(no_validation_leaf G). no_validation_leaf G.
Qed.

(** ** The model a call acts on *)

Ltac whole_model_leaf G :=
  subst G; cbv beta; unfold ret, acts_on_whole_model;
  cbn [fst snd trace log app]; split;
  [ each_event; cbn [model_of ev_call];
    (let m := fresh "m" in
     let Hm := fresh "Hm" in
     intros m Hm;
     first [ discriminate Hm
           | injection Hm as <-; eexists _, _;
             first [ left; reflexivity | right; reflexivity ] ])
  | reflexivity ].

(** X7: nothing acts on a half-built model.  In any run of either
    notebook, every [summary], [compile], [fit] and [evaluate] is called on
    the model with all its layers; and in the Sequential notebook the
    calls to [model.add] find a model of 0, 1, 2, ... layers in turn, each
    adding one layer to what the previous calls built. *)
Theorem calls_act_on_whole_model (fw : framework) :
  acts_on_whole_model (run cnn_mnist fw)
  /\ acts_on_whole_model (run y_network fw).
Proof.
  split.
  - as_outcome G. unfold_notebook.
    steps ltac:(whole_model_leaf G). whole_model_leaf G.
  - as_outcome G. unfold_notebook.
    steps ltac:(whole_model_leaf G). whole_model_leaf G.
Qed.

Example sample_adds_eight_layers :
  added_to (trace (snd (run cnn_mnist sample.quiet)))
  = [0; 1; 2; 3; 4; 5; 6; 7]%nat.
Proof. reflexivity. Qed.

(** ** The number of labels and the width of the label rows *)








(** ** The branch loop *)

Lemma chain_apply_all (ls : list keras.layer) (x : keras.tensor) :
  keras.chain (apply_all ls x) = keras.chain x ++ ls.
Proof.
  unfold apply_all. revert x.
  induction ls as [| l ls IH]; intros x; cbn [fold_left].
  - now rewrite app_nil_r.
  - rewrite IH. cbn [keras.chain]. now rewrite <- app_assoc.
Qed.

Lemma source_apply_all (ls : list keras.layer) (x : keras.tensor) :
  keras.source (apply_all ls x) = keras.source x.
Proof.
  unfold apply_all. revert x.
  induction ls as [| l ls IH]; intros x; cbn [fold_left]; [reflexivity |].
  now rewrite IH.
Qed.

Ltac branch_leaf G :=
  subst G; cbv beta; unfold ret;
  let x := fresh "x" in
  let w := fresh "w" in
  let H := fresh "H" in
  intros x w H;
  first
    [ discriminate H
    | injection H as <- <-;
      cbn [trace files log output_of];
      split; [reflexivity |]; split; [reflexivity |];
      repeat rewrite <- app_assoc; cbn [app];
      eexists; split; reflexivity ].

(** X9: the loop of a branch, from any tensor and in any world.  When it
    ends without an exception it has applied Conv-Pool-Conv-Pool-Conv to the
    tensor it was given: the layers below the result are those below that
    tensor followed by these five, its source is that tensor's source, the
    files are as they were, and ten calls were made, a construction and an
    application for each layer. *)
Theorem branch_appends_stack (fw : framework) (w w' : world)
    (dilation_rate : option Z) (x0 x : keras.tensor) :
  branch dilation_rate x0 fw w = (inr x, w') ->
  x = apply_all (stack_of_three dilation_rate None) x0
  /\ keras.chain x = keras.chain x0 ++ stack_of_three dilation_rate None
  /\ keras.source x = keras.source x0
  /\ files w' = files w
  /\ exists evs, trace w' = trace w ++ evs
                 /\ phases evs = repeat Build 10.
Proof.
  intros Hrun.
  assert (H : x = apply_all (stack_of_three dilation_rate None) x0
              /\ files w' = files w
              /\ exists evs, trace w' = trace w ++ evs
                             /\ phases evs = repeat Build 10).
  { revert x w' Hrun. pattern (branch dilation_rate x0 fw w).
    match goal with |- ?F _ => set (G := F) end.
    unfold branch. rewrite range_depth. cbn [for_in]. unfold_api. cbv beta zeta.
    steps ltac:(branch_leaf G). branch_leaf G. }
  destruct H as [-> [Hf Htr]].
  split; [reflexivity |].
  split; [apply chain_apply_all |].
  split; [apply source_apply_all |].
  split; assumption.
Qed.

Lemma branch_appends_stack_witness :
  exists x w',
    branch (Some 2) (keras.Input 0 [4%nat; 4%nat; 1%nat]) sample.quiet
      (mk_world [] []) = (inr x, w')
    /\ keras.chain x = stack_of_three (Some 2) None
    /\ length (trace w') = 10%nat.
Proof.
  assert (Hrun : {xw | branch (Some 2) (keras.Input 0 [4%nat; 4%nat; 1%nat])
                         sample.quiet (mk_world [] []) = (inr (fst xw), snd xw)}).
  { eexists (_, _). vm_compute. reflexivity. }
  destruct Hrun as [[x w'] Hrun]. cbn [fst snd] in Hrun.
  exists x, w'. split; [exact Hrun |].
  destruct (branch_appends_stack _ _ _ _ _ _ Hrun)
    as [_ [Hchain [_ [_ [evs [Htr Hph]]]]]].
  split; [exact Hchain |].
  rewrite Htr. cbn [trace app].
  rewrite <- (length_map (fun e => phase_of (ev_call e))).
  fold (phases evs). now rewrite Hph.
Defined.

(** ** Normalization keeps pixels apart *)

Lemma all_pixels_In (b : np.uint8) : In b all_pixels.
Proof.
  unfold all_pixels. apply in_map_iff.
  exists (N.to_nat (Byte.to_N b)). split.
  - now rewrite N2Nat.id, Byte.of_to_N.
  - apply in_seq. pose proof (Byte.to_N_bounded b). lia.
Qed.

Lemma increasing_from_all : forallb increasing_from all_pixels = true.
Proof. vm_compute. reflexivity. Qed.

(** X10: normalization keeps the order of pixel values: of two pixels, the
    one with the smaller 8-bit value has, after the cast to float32 and
    the division by 255, the strictly smaller value; so no two pixel values
    are merged. *)
Theorem normalize_increasing (b1 b2 : np.uint8) :
  np.uint8_val b1 < np.uint8_val b2 ->
  SFltb (normalize b1) (normalize b2) = true.
Proof.
  intros Hlt.
  pose proof increasing_from_all as Hall.
  rewrite forallb_forall in Hall.
  specialize (Hall b1 (all_pixels_In b1)). unfold increasing_from in Hall.
  rewrite forallb_forall in Hall. specialize (Hall b2 (all_pixels_In b2)).
  apply Z.ltb_lt in Hlt. rewrite Hlt in Hall. exact Hall.
Qed.

Lemma normalize_increasing_witness :
  np.uint8_val x7f%byte < np.uint8_val x80%byte
  /\ SFltb (normalize x7f%byte) (normalize x80%byte) = true.
Proof.
  assert (H : np.uint8_val x7f%byte < np.uint8_val x80%byte) by (vm_compute; reflexivity).
  split; [exact H | exact (normalize_increasing _ _ H)].
Defined.

Example normalize_ends :
  normalize x00%byte = F32.zero /\ normalize xff%byte = F32.one.
Proof. split; vm_compute; reflexivity. Qed.
